(** * go-urlshortner: a shallow embedding of the redirect handlers

    The program is a chain of [http.HandlerFunc]s.  Each link owns a
    [map[string]string] from request paths to destination URLs and a
    fallback handler; the innermost fallback is an [http.ServeMux] that
    serves a greeting.  The tables come from a Go map literal, from an
    embedded YAML document and from two configuration files.

    Go strings and [[]byte] are byte sequences; both are modelled by
    [string], whose characters are 8-bit [ascii] values.  A Go [map] is a
    [gmap]; a slice is a [list]; a [(value, error)] result is a pair whose
    second component is [None] for Go's [nil] error.

    The handlers do their work through the Go library.  What they call in
    [net/http], [path] and [strings] is transcribed from the library
    ([http.Redirect], and [http.ServeMux] as it is up to Go 1.21, for
    patterns without a host).  [url.Parse], the [String] method of
    [url.URL], [ioutil.ReadFile], [yaml.Unmarshal] and [json.Unmarshal] are
    parameters: the definitions and the theorems hold for every behaviour
    of these five. *)

From stdpp Require Import gmap strings list fin_maps.
From Stdlib Require Import Ascii.

(** ** Byte-string helpers of the Go runtime and of package [strings] *)

Definition error := string.

(** [s[i:]] *)
Definition sliceFrom (s : string) (i : nat) : string :=
  String.substring i (String.length s - i) s.

(** [s[:i]] *)
Definition sliceTo (s : string) (i : nat) : string :=
  String.substring 0 i s.

(** [strings.HasPrefix(s, prefix)] *)
Definition strings_HasPrefix (s prefix : string) : bool :=
  String.prefix prefix s.

(** [strings.HasSuffix(s, "/")], the only suffix the program tests. *)
Fixpoint endsWithSlash (s : string) : bool :=
  match s with
  | EmptyString => false
  | String c EmptyString => Ascii.eqb c "/"
  | String _ s' => endsWithSlash s'
  end.

(** [strings.Index(s, "?")]; [None] stands for Go's [-1]. *)
Definition strings_Index (s sep : string) : option nat :=
  String.index 0 sep s.

(** [bytealg.LastIndexByteString(s, c)]; [None] stands for [-1]. *)
Fixpoint LastIndexByte (s : string) (c : ascii) : option nat :=
  match s with
  | EmptyString => None
  | String a s' =>
      match LastIndexByte s' c with
      | Some i => Some (S i)
      | None => if Ascii.eqb a c then Some 0 else None
      end
  end.

Definition string_of_rev (out : list ascii) : string :=
  String.string_of_list_ascii (rev out).

Definition dquote : string := String "034" EmptyString.
Definition newline : string := String "010" EmptyString.

(** ** Package [path] *)

(** [path.Split]: the directory part keeps its final slash. *)
Definition path_Split (p : string) : string * string :=
  match LastIndexByte p "/" with
  | Some i => (sliceTo p (i + 1), sliceFrom p (i + 1))
  | None => (EmptyString, p)
  end.

(** The output buffer of [path.Clean] ([lazybuf]) is kept as the list of
    the bytes written so far, last byte first, so that [out.w] is its
    length and truncating it drops a prefix of the list. *)

(** The [..] case of [path.Clean] when it can backtrack:
    [out.w--; for out.w > dotdot && out.index(out.w) != '/' { out.w-- }].
    [c] is the byte at index [out.w], the one dropped last. *)
Fixpoint unwind (dotdot : nat) (c : ascii) (out : list ascii) : list ascii :=
  match out with
  | [] => []
  | c' :: out' =>
      if (dotdot <? length out)%nat && negb (Ascii.eqb c "/")
      then unwind dotdot c' out'
      else out
  end.

Definition backtrack (dotdot : nat) (out : list ascii) : list ascii :=
  match out with
  | [] => []
  | c :: out' => unwind dotdot c out'
  end.

(** [for ; r < n && path[r] != '/'; r++ { out.append(path[r]) }] *)
Fixpoint copyElement (rest : string) (out : list ascii) : string * list ascii :=
  match rest with
  | EmptyString => (rest, out)
  | String c rest' =>
      if Ascii.eqb c "/" then (rest, out) else copyElement rest' (c :: out)
  end.

(** [s[0] == c], false on the empty string. *)
Definition firstByteIs (c : ascii) (s : string) : bool :=
  match s with
  | EmptyString => false
  | String a _ => Ascii.eqb a c
  end.

(** [r == n || path[r] == '/'] for the unread input [path[r:]]. *)
Definition atEndOrSlash (rest : string) : bool :=
  match rest with
  | EmptyString => true
  | String a _ => Ascii.eqb a "/"
  end.

(** [s[1:]], the empty string when [s] is empty. *)
Definition dropByte (s : string) : string :=
  match s with
  | EmptyString => EmptyString
  | String _ s' => s'
  end.

(** The main loop of [path.Clean] over the unread input [path[r:]].  Every
    iteration reads at least one byte, so [String.length path] rounds of
    fuel are never used up. *)
Fixpoint cleanLoop (fuel : nat) (rooted : bool) (rest : string)
    (out : list ascii) (dotdot : nat) : list ascii :=
  match fuel with
  | O => out
  | S fuel' =>
      match rest with
      | EmptyString => out
      | String c rest1 =>
          if Ascii.eqb c "/" then
            (* empty path element *)
            cleanLoop fuel' rooted rest1 out dotdot
          else if Ascii.eqb c "." && atEndOrSlash rest1 then
            (* . element *)
            cleanLoop fuel' rooted rest1 out dotdot
          else if Ascii.eqb c "." && firstByteIs "." rest1
                  && atEndOrSlash (dropByte rest1) then
            (* .. element: remove to last / *)
            let rest2 := dropByte rest1 in
            if (dotdot <? length out)%nat then
              (* can backtrack *)
              cleanLoop fuel' rooted rest2 (backtrack dotdot out) dotdot
            else if negb rooted then
              (* cannot backtrack, but not rooted, so append .. element *)
              let out1 := if (0 <? length out)%nat then "/"%char :: out else out in
              let out2 := "."%char :: "."%char :: out1 in
              cleanLoop fuel' rooted rest2 out2 (length out2)
            else
              cleanLoop fuel' rooted rest2 out dotdot
          else
            (* real path element: add slash if needed, copy element *)
            let out1 :=
              if (rooted && negb (length out =? 1)%nat)
                 || (negb rooted && negb (length out =? 0)%nat)
              then "/"%char :: out else out in
            let '(rest3, out2) := copyElement rest out1 in
            cleanLoop fuel' rooted rest3 out2 dotdot
      end
  end.

(** [path.Clean] *)
Definition path_Clean (p : string) : string :=
  match p with
  | EmptyString => "."
  | String c _ =>
      let rooted := Ascii.eqb c "/" in
      let out :=
        if rooted
        then cleanLoop (String.length p) true (dropByte p) ["/"%char] 1
        else cleanLoop (String.length p) false p [] 0 in
      match out with
      | [] => "."
      | _ => string_of_rev out
      end
  end.

(** ** Package [net/url] *)

Module url.
(** The fields of [url.URL] that the program and [net/http] read. *)
Record URL := mkURL {
  Scheme : string;
  Host : string;
  Path : string;
  RawQuery : string
}.
End url.

(** [url.Parse] and the [String] method of [url.URL] are not interpreted:
    the handlers are defined for every behaviour of the two functions.
    [url_Parse s = inr err] is Go's [(nil, err)]. *)
Class NetURL := {
  url_Parse : string -> url.URL + error;
  url_String : url.URL -> string
}.

(** ** Package [net/http]: requests and response writers *)

Record Request := mkRequest {
  Method : string;
  ReqURL : url.URL;          (* r.URL *)
  RequestURI : string;
  ProtoMajor : nat;
  ProtoMinor : nat
}.

(** An [http.ResponseWriter] is modelled by what the handlers have written
    to it so far: the header map, the status code ([None] until
    [WriteHeader] or the first [Write]) and the body. *)
Record ResponseWriter := mkResponseWriter {
  Header : gmap string (list string);
  status : option nat;
  body : string
}.

(** The writer the server hands to the root handler. *)
Definition newResponseWriter : ResponseWriter :=
  {| Header := ∅; status := None; body := EmptyString |}.

(** [http.Handler]: [ServeHTTP(w, r)] updates the writer. *)
Definition Handler := ResponseWriter -> Request -> ResponseWriter.

Definition http_StatusOK : nat := 200.
Definition http_StatusMovedPermanently : nat := 301.
Definition http_StatusFound : nat := 302.
Definition http_StatusBadRequest : nat := 400.
Definition http_StatusNotFound : nat := 404.

(** [http.StatusText], on the codes the program and its mux pass. *)
Definition http_StatusText (code : nat) : string :=
  if (code =? 200)%nat then "OK"
  else if (code =? 301)%nat then "Moved Permanently"
  else if (code =? 302)%nat then "Found"
  else if (code =? 400)%nat then "Bad Request"
  else if (code =? 404)%nat then "Not Found"
  else EmptyString.

(** [w.Header().Set(key, value)], for keys already in canonical form. *)
Definition Header_Set (key value : string) (w : ResponseWriter) : ResponseWriter :=
  {| Header := <[key := [value]]> (Header w); status := status w; body := body w |}.

(** [w.WriteHeader(code)]: only the first call sets the status. *)
Definition WriteHeader (code : nat) (w : ResponseWriter) : ResponseWriter :=
  match status w with
  | Some _ => w
  | None => {| Header := Header w; status := Some code; body := body w |}
  end.

(** [w.Write(data)]: writes the header with [200] if it is not yet written. *)
Definition Write (data : string) (w : ResponseWriter) : ResponseWriter :=
  let w' := WriteHeader http_StatusOK w in
  {| Header := Header w'; status := status w'; body := body w' +:+ data |}.

(** [fmt.Fprintln(w, s)] *)
Definition fmt_Fprintln (s : string) (w : ResponseWriter) : ResponseWriter :=
  Write (s +:+ newline) w.

(** The digits of [strconv.AppendInt(b, n, 16)] for a byte value. *)
Definition hexDigit (n : nat) : ascii :=
  match n with
  | 0 => "0" | 1 => "1" | 2 => "2" | 3 => "3" | 4 => "4" | 5 => "5"
  | 6 => "6" | 7 => "7" | 8 => "8" | 9 => "9" | 10 => "a" | 11 => "b"
  | 12 => "c" | 13 => "d" | 14 => "e" | _ => "f"
  end%char.

Definition appendHex (n : nat) (s : string) : string :=
  if (n <? 16)%nat then String (hexDigit n) s
  else String (hexDigit (n / 16)) (String (hexDigit (n mod 16)) s).

(** [utf8.RuneSelf] *)
Definition utf8_RuneSelf : nat := 128.

(** [hexEscapeNonASCII]: every byte [>= utf8.RuneSelf] becomes [%] and its
    value in hexadecimal; the other bytes are copied. *)
Fixpoint hexEscapeNonASCII (s : string) : string :=
  match s with
  | EmptyString => EmptyString
  | String c s' =>
      if (utf8_RuneSelf <=? nat_of_ascii c)%nat
      then String "%" (appendHex (nat_of_ascii c) (hexEscapeNonASCII s'))
      else String c (hexEscapeNonASCII s')
  end.

(** [htmlEscape], the replacer of [net/http]. *)
Fixpoint htmlEscape (s : string) : string :=
  match s with
  | EmptyString => EmptyString
  | String c s' =>
      (if Ascii.eqb c "&" then "&amp;"
       else if Ascii.eqb c "<" then "&lt;"
       else if Ascii.eqb c ">" then "&gt;"
       else if Ascii.eqb c "034" then "&#34;"
       else if Ascii.eqb c "'" then "&#39;"
       else String c EmptyString) +:+ htmlEscape s'
  end.

(** [cleanPath] of [net/http]: the canonical form of a request path. *)
Definition cleanPath (p : string) : string :=
  match p with
  | EmptyString => "/"
  | String c _ =>
      let p := if Ascii.eqb c "/" then p else "/" +:+ p in
      let np := path_Clean p in
      (* path.Clean removes the trailing slash except for the root *)
      if endsWithSlash p && negb (String.eqb np "/") then
        if (String.length p =? String.length np + 1)%nat && strings_HasPrefix p np
        then p else np +:+ "/"
      else np
  end.

(** [r.ProtoAtLeast(major, minor)] *)
Definition ProtoAtLeast (r : Request) (major minor : nat) : bool :=
  (major <? ProtoMajor r)%nat
  || ((ProtoMajor r =? major)%nat && (minor <=? ProtoMinor r)%nat).

(** [http.Error] *)
Definition http_Error (w : ResponseWriter) (err : string) (code : nat) : ResponseWriter :=
  let w := Header_Set "Content-Type" "text/plain; charset=utf-8" w in
  let w := Header_Set "X-Content-Type-Options" "nosniff" w in
  let w := WriteHeader code w in
  fmt_Fprintln err w.

(** [http.NotFound] and [http.NotFoundHandler()] *)
Definition http_NotFound : Handler :=
  fun w r => http_Error w "404 page not found" http_StatusNotFound.

Section NetHTTP.
Context {L : NetURL}.

(** The first block of [http.Redirect]: a [url] that parses with neither
    scheme nor host is made absolute against the request path, and
    cleaned with its query and trailing slash kept; any other [url],
    also one that does not parse, is left as it is. *)
Definition redirectURL (r : Request) (url : string) : string :=
  match url_Parse url with
  | inl u =>
      if String.eqb (url.Scheme u) "" && String.eqb (url.Host u) "" then
        let oldpath := url.Path (ReqURL r) in
        let oldpath := if String.eqb oldpath "" then "/" else oldpath in
        (* no leading http://server: make a relative path absolute *)
        let url :=
          if negb (firstByteIs "/" url)
          then fst (path_Split oldpath) +:+ url else url in
        let '(url, query) :=
          match strings_Index url "?" with
          | Some i => (sliceTo url i, sliceFrom url i)
          | None => (url, EmptyString)
          end in
        (* clean up but preserve trailing slash *)
        let trailing := endsWithSlash url in
        let url := path_Clean url in
        let url := if trailing && negb (endsWithSlash url) then url +:+ "/" else url in
        url +:+ query
      else url
  | inr _ => url
  end.

(** [http.Redirect(w, r, url, code)] *)
Definition http_Redirect (w : ResponseWriter) (r : Request) (url : string)
    (code : nat) : ResponseWriter :=
  let url := redirectURL r url in
  let hadCT := match Header w !! "Content-Type" with Some _ => true | None => false end in
  let w := Header_Set "Location" (hexEscapeNonASCII url) w in
  let w :=
    if negb hadCT && (String.eqb (Method r) "GET" || String.eqb (Method r) "HEAD")
    then Header_Set "Content-Type" "text/html; charset=utf-8" w else w in
  let w := WriteHeader code w in
  (* Shouldn't send the body for POST or HEAD; that leaves GET. *)
  if negb hadCT && String.eqb (Method r) "GET" then
    fmt_Fprintln ("<a href=" +:+ dquote +:+ htmlEscape url +:+ dquote +:+ ">"
                  +:+ http_StatusText code +:+ "</a>." +:+ newline) w
  else w.

(** [http.RedirectHandler(url, code)] *)
Definition http_RedirectHandler (url : string) (code : nat) : Handler :=
  fun w r => http_Redirect w r url code.

(** *** [http.ServeMux]

    The mux is modelled for patterns that name no host, which is all
    [defaultMux] registers: [mux.m] maps a pattern to its handler and
    [mux.es] lists the patterns that end in a slash, longest first. *)
Record ServeMux := mkServeMux {
  mux_m : gmap string Handler;
  mux_es : list (string * Handler)
}.

Definition http_NewServeMux : ServeMux := {| mux_m := ∅; mux_es := [] |}.

Fixpoint appendSorted (es : list (string * Handler)) (e : string * Handler)
    : list (string * Handler) :=
  match es with
  | [] => [e]
  | e' :: es' =>
      if (String.length (fst e') <? String.length (fst e))%nat
      then e :: es else e' :: appendSorted es' e
  end.

(** [mux.HandleFunc(pattern, handler)] for a new, non-empty pattern (Go
    panics on an empty or repeated one). *)
Definition ServeMux_HandleFunc (mux : ServeMux) (pattern : string)
    (handler : Handler) : ServeMux :=
  {| mux_m := <[pattern := handler]> (mux_m mux);
     mux_es := if endsWithSlash pattern
               then appendSorted (mux_es mux) (pattern, handler)
               else mux_es mux |}.

(** [mux.match(path)]: an exact match first, then the longest pattern
    that is a prefix of the path. *)
Definition ServeMux_match (mux : ServeMux) (path : string) : option Handler :=
  match mux_m mux !! path with
  | Some h => Some h
  | None =>
      snd <$> List.find (fun e => strings_HasPrefix path (fst e)) (mux_es mux)
  end.

(** [mux.handler(host, path)] *)
Definition ServeMux_handler (mux : ServeMux) (path : string) : Handler :=
  match ServeMux_match mux path with
  | Some h => h
  | None => http_NotFound
  end.

(** [mux.shouldRedirectRLocked(host, path)] *)
Definition ServeMux_shouldRedirect (mux : ServeMux) (path : string) : bool :=
  match mux_m mux !! path with
  | Some _ => false
  | None =>
      if String.eqb path "" then false
      else match mux_m mux !! (path +:+ "/") with
           | Some _ => negb (endsWithSlash path)
           | None => false
           end
  end.

(** [mux.Handler(r)]: a [CONNECT] request is looked up as it is; for any
    other, a path that is not in canonical form is answered with a
    permanent redirect to the canonical one. *)
Definition ServeMux_Handler (mux : ServeMux) (r : Request) : Handler :=
  let u := ReqURL r in
  if String.eqb (Method r) "CONNECT" then
    if ServeMux_shouldRedirect mux (url.Path u) then
      http_RedirectHandler
        (url_String (url.mkURL "" "" (url.Path u +:+ "/") (url.RawQuery u)))
        http_StatusMovedPermanently
    else ServeMux_handler mux (url.Path u)
  else
    let path := cleanPath (url.Path u) in
    if ServeMux_shouldRedirect mux path then
      http_RedirectHandler
        (url_String (url.mkURL "" "" (path +:+ "/") (url.RawQuery u)))
        http_StatusMovedPermanently
    else if negb (String.eqb path (url.Path u)) then
      http_RedirectHandler
        (url_String (url.mkURL "" "" path (url.RawQuery u)))
        http_StatusMovedPermanently
    else ServeMux_handler mux (url.Path u).

(** [mux.ServeHTTP(w, r)] *)
Definition ServeMux_ServeHTTP (mux : ServeMux) : Handler :=
  fun w r =>
    if String.eqb (RequestURI r) "*" then
      let w := if ProtoAtLeast r 1 1 then Header_Set "Connection" "close" w else w in
      WriteHeader http_StatusBadRequest w
    else ServeMux_Handler mux r w r.
End NetHTTP.

(** ** Package [urlshort]: the record type *)

(** [pathURL] *)
Record pathURL := mkPathURL {
  Path : string;
  URL : string
}.

(** ** The world outside the process

    [ioutil.ReadFile], [yaml.Unmarshal] and [json.Unmarshal] are not
    interpreted either.  Each returns what it stored through its result or
    output parameter together with the error; the data may be partial when
    the error is not [nil].  Every call is recorded, in order. *)

Class World := {
  ioutil_ReadFile : string -> string * option error;
  yaml_Unmarshal : string -> list pathURL * option error;
  json_Unmarshal : string -> list pathURL * option error
}.

Inductive Call :=
  | CallReadFile (fileName : string)
  | CallYAMLUnmarshal (data : string)
  | CallJSONUnmarshal (data : string)
  | CallPrintln (line : string).

(** A computation that makes calls: the calls made so far go in, the
    result and the extended record come out. *)
Definition IO (A : Type) : Type := list Call -> A * list Call.

Definition IO_ret {A} (a : A) : IO A := fun calls => (a, calls).

Definition IO_bind {A B} (m : IO A) (k : A -> IO B) : IO B :=
  fun calls => let '(a, calls') := m calls in k a calls'.

Definition IO_call {A} (c : Call) (result : A) : IO A :=
  fun calls => (result, (calls ++ [c])%list).

#[export] Instance IO_MRet : MRet IO := @IO_ret.
#[export] Instance IO_MBind : MBind IO := fun A B k m => IO_bind m k.

(** ** Package [urlshort]: the handlers *)

Section Urlshort.
Context {L : NetURL} {W : World}.

(** [MapHandler] *)
Definition MapHandler (pathsToUrls : gmap string string)
    (fallbackHandler : Handler) : Handler :=
  fun rw r =>
    let currentPath := url.Path (ReqURL r) in
    match pathsToUrls !! currentPath with
    | Some destination => http_Redirect rw r destination http_StatusFound
    | None => fallbackHandler rw r
    end.

(** [openFile] *)
Definition openFile (fileName : string) : IO (string * option error) :=
  '(fileByte, err) ← IO_call (CallReadFile fileName) (ioutil_ReadFile fileName);
  match err with
  | Some e => IO_ret (EmptyString, Some e)
  | None => IO_ret (fileByte, None)
  end.

(** [parseJSONToPathURL] *)
Definition parseJSONToPathURL (data : string) : IO (list pathURL * option error) :=
  '(pathsToURLs, err) ← IO_call (CallJSONUnmarshal data) (json_Unmarshal data);
  match err with
  | Some e => IO_ret ([], Some e)
  | None => IO_ret (pathsToURLs, None)
  end.

(** [parseYAMLToPathURL] *)
Definition parseYAMLToPathURL (data : string) : IO (list pathURL * option error) :=
  '(pathURLs, err) ← IO_call (CallYAMLUnmarshal data) (yaml_Unmarshal data);
  match err with
  | Some e => IO_ret ([], Some e)
  | None => IO_ret (pathURLs, None)
  end.

(** [pathSliceToMapConversion] *)
Definition pathSliceToMapConversion (pUrls : list pathURL) : gmap string string :=
  fold_left (fun result pU => <[Path pU := URL pU]> result) pUrls ∅.

(** [YAMLHandler]; the handler is [None] for Go's [nil]. *)
Definition YAMLHandler (yml : string) (fallbackHandler : Handler)
    : IO (option Handler * option error) :=
  (* 1. Parse Yaml *)
  '(pathURLs, err) ← parseYAMLToPathURL yml;
  match err with
  | Some e => IO_ret (None, Some e)
  | None =>
      (* 2. Convert slice of pathURL to map *)
      let pathsToURLs := pathSliceToMapConversion pathURLs in
      IO_ret (Some (MapHandler pathsToURLs fallbackHandler), None)
  end.

(** [JSONFileHandler] *)
Definition JSONFileHandler (jsonFileName : string) (fallbackHandler : Handler)
    : IO (option Handler * option error) :=
  (* 1. Read JSON file data *)
  '(jsonData, err) ← openFile jsonFileName;
  match err with
  | Some e => IO_ret (None, Some e)
  | None =>
      (* 2. Parse JSON data to slice of pathURLs *)
      '(pathURLs, err) ← parseJSONToPathURL jsonData;
      match err with
      | Some e => IO_ret (None, Some e)
      | None =>
          (* 3. Convert slice of pathURLs to map *)
          let pathsToURLs := pathSliceToMapConversion pathURLs in
          IO_ret (Some (MapHandler pathsToURLs fallbackHandler), None)
      end
  end.

(** [YAMLFileHandler] *)
Definition YAMLFileHandler (yamlFileName : string) (fallbackHandler : Handler)
    : IO (option Handler * option error) :=
  (* 1. Open yaml file *)
  '(yamlBytes, err) ← openFile yamlFileName;
  match err with
  | Some e => IO_ret (None, Some e)
  | None => YAMLHandler yamlBytes fallbackHandler
  end.

(** ** Package [main] *)

(** A value of type [http.HandlerFunc] used as a handler.  The value may
    be [nil]; calling it then panics, the server recovers from the panic
    and nothing is written. *)
Definition HandlerFunc (f : option Handler) : Handler :=
  match f with
  | Some h => h
  | None => fun w _ => w
  end.

(** [hello] *)
Definition hello : Handler :=
  fun w r => fmt_Fprintln "Hello, world!" w.

(** [defaultMux] *)
Definition defaultMux : ServeMux :=
  let mux := http_NewServeMux in
  let mux := ServeMux_HandleFunc mux "/" hello in
  mux.

(** The map literal of [main]. *)
Definition pathsToUrls : gmap string string :=
  <["/yaml-godoc" := "https://godoc.org/gopkg.in/yaml.v2"]>
    (<["/urlshort-godoc" := "https://godoc.org/github.com/gophercises/urlshort"]> ∅).

(** The YAML document embedded in [main]. *)
Definition yaml : string :=
  newline
  +:+ "- path: /urlshort" +:+ newline
  +:+ "  url: https://github.com/gophercises/urlshort" +:+ newline
  +:+ "- path: /urlshort-final" +:+ newline
  +:+ "  url: https://github.com/gophercises/urlshort/tree/solution" +:+ newline.

(** How [main] ends: in [panic(err)], or in
    [http.ListenAndServe(addr, handler)], which serves every request
    with [handler]. *)
Inductive Exit :=
  | Panic (err : error)
  | ListenAndServe (addr : string) (handler : Handler).

(** [main], after [flag.Parse] has set the two file names (by default
    [paths.json] and [paths.yaml]). *)
Definition main (jsonFileName yamlFileName : string) : IO Exit :=
  let mux := defaultMux in
  (* Build the MapHandler using the mux as the fallback *)
  let mapHandler := MapHandler pathsToUrls (ServeMux_ServeHTTP mux) in
  (* Build the YAMLHandler using the mapHandler as the fallback *)
  '(yamlHandler, err) ← YAMLHandler yaml mapHandler;
  match err with
  | Some e => IO_ret (Panic e)
  | None =>
      '(jsonFileHandler, err) ←
        JSONFileHandler jsonFileName (HandlerFunc yamlHandler);
      match err with
      | Some e => IO_ret (Panic e)
      | None =>
          '(yamlFileHandler, err) ←
            YAMLFileHandler yamlFileName (HandlerFunc jsonFileHandler);
          match err with
          | Some e => IO_ret (Panic e)
          | None =>
              _ ← IO_call (CallPrintln "Starting the server on :8080") tt;
              IO_ret (ListenAndServe ":8080" (HandlerFunc yamlFileHandler))
          end
      end
  end.
End Urlshort.

(** ** Notions used to state the properties *)

(** A chain of map handlers around a default handler, the table of the
    outermost handler first. *)
Definition chain {L : NetURL} (tables : list (gmap string string))
    (default : Handler) : Handler :=
  foldr MapHandler default tables.

(** The destination of the first table, in the given order, that has the
    path as a key. *)
Fixpoint firstMatch (tables : list (gmap string string)) (p : string)
    : option string :=
  match tables with
  | [] => None
  | t :: tables' =>
      match t !! p with
      | Some destination => Some destination
      | None => firstMatch tables' p
      end
  end.

(** No byte of the string is [>= utf8.RuneSelf]. *)
Fixpoint isASCII (s : string) : bool :=
  match s with
  | EmptyString => true
  | String c s' => (nat_of_ascii c <? utf8_RuneSelf)%nat && isASCII s'
  end.

(** [http.Redirect] leaves the URL as it is: [url.Parse] rejects it, or
    finds a scheme or a host in it. *)
Definition keptByRedirect {L : NetURL} (url : string) : Prop :=
  match url_Parse url with
  | inl u => String.eqb (url.Scheme u) "" && String.eqb (url.Host u) "" = false
  | inr _ => True
  end.

(** ** Excerpts of the library functions, to run the model on examples

    The examples evaluate the handlers on concrete requests and files.
    They use the following excerpts of [url.Parse], [ioutil.ReadFile],
    [yaml.Unmarshal] and [json.Unmarshal]: each gives the library's result
    on the inputs listed and reports an error on any other input.  The
    examples use them on the listed inputs, on a file name that does not
    exist and on a document that is not well-formed. *)

Definition quoted (s : string) : string := dquote +:+ s +:+ dquote.

(** [[{"path":"/a","url":"http://example.com/a"}]] *)
Definition sampleJSON : string :=
  "[{" +:+ quoted "path" +:+ ":" +:+ quoted "/a" +:+ ","
  +:+ quoted "url" +:+ ":" +:+ quoted "http://example.com/a" +:+ "}]".

Definition sampleYAML : string :=
  "- path: /a" +:+ newline +:+ "  url: http://example.com/a" +:+ newline.

Definition sampleRecords : list pathURL :=
  [mkPathURL "/a" "http://example.com/a"].

Definition embeddedRecords : list pathURL :=
  [mkPathURL "/urlshort" "https://github.com/gophercises/urlshort";
   mkPathURL "/urlshort-final" "https://github.com/gophercises/urlshort/tree/solution"].

Definition sampleURL : NetURL := {|
  url_Parse s :=
    if String.eqb s "https://godoc.org/gopkg.in/yaml.v2"
    then inl (url.mkURL "https" "godoc.org" "/gopkg.in/yaml.v2" "")
    else if String.eqb s "https://github.com/gophercises/urlshort"
    then inl (url.mkURL "https" "github.com" "/gophercises/urlshort" "")
    else if String.eqb s "http://example.com/a"
    then inl (url.mkURL "http" "example.com" "/a" "")
    else if String.eqb s "/b"
    then inl (url.mkURL "" "" "/b" "")
    else if String.eqb s "../b/"
    then inl (url.mkURL "" "" "../b/" "")
    else inr "parse: not in the excerpt";
  url_String u :=
    if String.eqb (url.RawQuery u) "" then url.Path u
    else url.Path u +:+ "?" +:+ url.RawQuery u
|}.

Definition sampleWorld : World := {|
  ioutil_ReadFile name :=
    if String.eqb name "paths.json" then (sampleJSON, None)
    else if String.eqb name "paths.yaml" then (sampleYAML, None)
    else (EmptyString, Some ("open " +:+ name +:+ ": no such file or directory"));
  yaml_Unmarshal data :=
    if String.eqb data yaml then (embeddedRecords, None)
    else if String.eqb data sampleYAML then (sampleRecords, None)
    else ([], Some "yaml: unmarshal errors");
  json_Unmarshal data :=
    if String.eqb data sampleJSON then (sampleRecords, None)
    else ([], Some "json: cannot unmarshal")
|}.

(** The document that the specification gives as malformed YAML: a colon,
    a line feed, then [  - bad].  [yaml.Unmarshal] rejects it; the excerpt
    above does so as well. *)
Definition malformedYAML : string := ":" +:+ newline +:+ "  - bad".

(** The path [/é]: a slash and the two bytes of the UTF-8 encoding of
    U+00E9. *)
Definition nonASCIIPath : string :=
  String "/" (String "195" (String "169" EmptyString)).

(** A request line [method target HTTP/1.1] whose target is a path. *)
Definition request (method target : string) : Request :=
  {| Method := method; ReqURL := url.mkURL "" "" target "";
     RequestURI := target; ProtoMajor := 1; ProtoMinor := 1 |}.

(** The entries of a table as records, in the order of [map_to_list]. *)
Definition tableRecords (table : gmap string string) : list pathURL :=
  (fun entry => mkPathURL (fst entry) (snd entry)) <$> map_to_list table.

(** An excerpt of the library for documents without records: the files
    [empty.json] and [empty.yaml] hold the empty sequence [[]], which both
    decoders accept and decode to no record. *)
Definition emptyDocWorld : World := {|
  ioutil_ReadFile name :=
    if String.eqb name "empty.json" then ("[]", None)
    else if String.eqb name "empty.yaml" then ("[]", None)
    else (EmptyString, Some ("open " +:+ name +:+ ": no such file or directory"));
  yaml_Unmarshal data :=
    if String.eqb data "[]" then ([], None)
    else ([], Some "yaml: unmarshal errors");
  json_Unmarshal data :=
    if String.eqb data "[]" then ([], None)
    else ([], Some "json: cannot unmarshal")
|}.

(** * Properties *)

Example path_Clean_dots : path_Clean "/a/./b/../../c//d/" = "/c/d".
Proof. reflexivity. Qed.

Example path_Clean_up : path_Clean "a/../../b/.." = "..".
Proof. reflexivity. Qed.

Example path_Clean_root : path_Clean "/../.." = "/".
Proof. reflexivity. Qed.

(** ** Response writers *)

Lemma WriteHeader_fresh code w :
  status w = None -> status (WriteHeader code w) = Some code.
Proof. unfold WriteHeader. intros ->. reflexivity. Qed.

Lemma WriteHeader_Header code w : Header (WriteHeader code w) = Header w.
Proof. destruct w as [h [c|] b]; reflexivity. Qed.

Lemma WriteHeader_body code w : body (WriteHeader code w) = body w.
Proof. destruct w as [h [c|] b]; reflexivity. Qed.

Lemma WriteHeader_written code w :
  status w <> None -> WriteHeader code w = w.
Proof. destruct w as [h [c|] b]; simpl; [reflexivity | congruence]. Qed.

Lemma fmt_Fprintln_status s w :
  status (fmt_Fprintln s w) = Some (default http_StatusOK (status w)).
Proof. destruct w as [h [c|] b]; reflexivity. Qed.

Lemma fmt_Fprintln_Header s w : Header (fmt_Fprintln s w) = Header w.
Proof. unfold fmt_Fprintln, Write. simpl. apply WriteHeader_Header. Qed.

Lemma fmt_Fprintln_body s w :
  body (fmt_Fprintln s w) = body w +:+ s +:+ newline.
Proof. unfold fmt_Fprintln, Write. simpl. rewrite WriteHeader_body. reflexivity. Qed.

(** ** Escaping *)

Lemma hexDigit_ASCII n : (nat_of_ascii (hexDigit n) <? utf8_RuneSelf)%nat = true.
Proof. do 16 (destruct n as [|n]; [reflexivity|]). reflexivity. Qed.

Lemma appendHex_ASCII n s : isASCII s = true -> isASCII (appendHex n s) = true.
Proof.
  intros Hs. unfold appendHex.
  destruct (n <? 16)%nat; simpl; rewrite ?hexDigit_ASCII, Hs; reflexivity.
Qed.

(** Whatever goes in, [hexEscapeNonASCII] returns ASCII bytes only. *)
Lemma hexEscapeNonASCII_isASCII s : isASCII (hexEscapeNonASCII s) = true.
Proof.
  induction s as [|c s IH]; [reflexivity|].
  cbn [hexEscapeNonASCII].
  destruct (utf8_RuneSelf <=? nat_of_ascii c)%nat eqn:Hc.
  - change (isASCII (String "%" ?t)) with (isASCII t).
    apply appendHex_ASCII, IH.
  - cbn [isASCII]. rewrite IH, andb_true_r.
    apply Nat.leb_gt in Hc. apply Nat.ltb_lt, Hc.
Qed.

(** It is the identity on ASCII strings. *)
Lemma hexEscapeNonASCII_id s : isASCII s = true -> hexEscapeNonASCII s = s.
Proof.
  induction s as [|c s IH]; [reflexivity|].
  cbn [isASCII hexEscapeNonASCII]. intros [Hc Hs]%andb_true_iff.
  apply Nat.ltb_lt in Hc.
  destruct (Nat.leb_spec utf8_RuneSelf (nat_of_ascii c)) as [Hle|_]; [lia|].
  rewrite IH by assumption. reflexivity.
Qed.

Section RedirectFacts.
Context {L : NetURL}.

Lemma redirectURL_kept r url : keptByRedirect url -> redirectURL r url = url.
Proof.
  unfold keptByRedirect, redirectURL.
  destruct (url_Parse url) as [u|e]; [|reflexivity].
  intros ->. reflexivity.
Qed.

Lemma http_Redirect_status w r url code :
  status w = None -> status (http_Redirect w r url code) = Some code.
Proof.
  intros Hw. unfold http_Redirect.
  repeat match goal with
         | |- context [if ?b then _ else _] => destruct b
         end;
    rewrite ?fmt_Fprintln_status; rewrite WriteHeader_fresh; auto.
Qed.

Lemma http_Redirect_Location w r url code :
  Header (http_Redirect w r url code) !! "Location"
  = Some [hexEscapeNonASCII (redirectURL r url)].
Proof.
  unfold http_Redirect.
  repeat match goal with
         | |- context [if ?b then _ else _] => destruct b
         end;
    rewrite ?fmt_Fprintln_Header, WriteHeader_Header; unfold Header_Set; simpl;
    rewrite ?lookup_insert_ne by discriminate; apply lookup_insert_eq.
Qed.

(** The status and the [Location] header of a redirect are functions of
    the writer, the request path, the URL and the code: no other part of
    the request reaches them. *)
Lemma redirectURL_path r1 r2 url :
  url.Path (ReqURL r1) = url.Path (ReqURL r2) ->
  redirectURL r1 url = redirectURL r2 url.
Proof. unfold redirectURL. intros ->. reflexivity. Qed.

Lemma http_Redirect_status_eq w r1 r2 url code :
  status (http_Redirect w r1 url code) = status (http_Redirect w r2 url code).
Proof.
  destruct (status w) as [c|] eqn:Hw.
  - assert (Hk : forall r, status (http_Redirect w r url code) = Some c).
    { intros r. unfold http_Redirect.
      repeat match goal with
             | |- context [if ?b then _ else _] => destruct b
             end;
        rewrite ?fmt_Fprintln_status; unfold WriteHeader, Header_Set; simpl;
        rewrite Hw; simpl; rewrite ?Hw; reflexivity. }
    rewrite !Hk. reflexivity.
  - rewrite !http_Redirect_status by assumption. reflexivity.
Qed.

(** ** The map handler *)

Lemma MapHandler_hit pathsToUrls fallbackHandler rw r destination :
  pathsToUrls !! url.Path (ReqURL r) = Some destination ->
  MapHandler pathsToUrls fallbackHandler rw r
  = http_Redirect rw r destination http_StatusFound.
Proof. unfold MapHandler. intros ->. reflexivity. Qed.

Lemma MapHandler_miss pathsToUrls fallbackHandler rw r :
  pathsToUrls !! url.Path (ReqURL r) = None ->
  MapHandler pathsToUrls fallbackHandler rw r = fallbackHandler rw r.
Proof. unfold MapHandler. intros ->. reflexivity. Qed.

End RedirectFacts.

(** A URL without scheme and host is resolved against the request path. *)
Example http_Redirect_relative :
  Header (http_Redirect (L := sampleURL) newResponseWriter (request "GET" "/x/y")
            "../b/" http_StatusFound) !! "Location"
  = Some ["/b/"].
Proof. rewrite http_Redirect_Location. reflexivity. Qed.

(** ** Canonical paths *)

Lemma unwind_rooted l c :
  exists l', unwind 1 c (l ++ ["/"%char]) = l' ++ ["/"%char].
Proof.
  revert c. induction l as [|a l IH]; intros c.
  - exists []. reflexivity.
  - cbn [app unwind].
    destruct ((1 <? length (a :: l ++ ["/"%char]))%nat && negb (Ascii.eqb c "/")).
    + apply IH.
    + exists (a :: l). reflexivity.
Qed.

Lemma backtrack_rooted l :
  (1 <? length (l ++ ["/"%char])) = true ->
  exists l', backtrack 1 (l ++ ["/"%char]) = l' ++ ["/"%char].
Proof.
  destruct l as [|c l].
  - discriminate.
  - intros _. apply unwind_rooted.
Qed.

Lemma copyElement_extends rest out :
  exists l, snd (copyElement rest out) = l ++ out.
Proof.
  revert out. induction rest as [|c rest IH]; intros out.
  - exists []. reflexivity.
  - cbn [copyElement]. destruct (Ascii.eqb c "/").
    + exists []. reflexivity.
    + destruct (IH (c :: out)) as [l Hl]. exists (l ++ [c]).
      rewrite Hl, <- app_assoc. reflexivity.
Qed.

Lemma copyElement_rest rest out :
  String.length (fst (copyElement rest out)) <= String.length rest.
Proof.
  revert out. induction rest as [|c rest IH]; intros out; [reflexivity|].
  cbn [copyElement]. destruct (Ascii.eqb c "/"); [reflexivity|].
  cbn [String.length]. specialize (IH (c :: out)). lia.
Qed.

Lemma dropByte_length s : String.length (dropByte s) <= String.length s.
Proof. destruct s; cbn; lia. Qed.

(** The loop of [path.Clean] ends before its fuel does: with as many
    rounds as the unread input has bytes, more fuel changes nothing. *)
Lemma cleanLoop_enough_fuel fuel1 fuel2 rooted rest out dotdot :
  String.length rest <= fuel1 ->
  String.length rest <= fuel2 ->
  cleanLoop fuel1 rooted rest out dotdot = cleanLoop fuel2 rooted rest out dotdot.
Proof.
  revert fuel2 rest out dotdot.
  induction fuel1 as [|fuel1 IH]; intros fuel2 rest out dotdot H1 H2.
  - destruct rest; [|cbn in H1; lia]. destruct fuel2; reflexivity.
  - destruct rest as [|c rest1]; [destruct fuel2; reflexivity|].
    destruct fuel2 as [|fuel2]; [cbn in H2; lia|].
    cbn [String.length] in H1, H2. cbn [cleanLoop].
    pose proof (dropByte_length rest1) as Hdrop.
    destruct (Ascii.eqb c "/") eqn:Hc; [apply IH; lia|].
    destruct (Ascii.eqb c "." && atEndOrSlash rest1); [apply IH; lia|].
    destruct (Ascii.eqb c "." && firstByteIs "." rest1 && atEndOrSlash (dropByte rest1)).
    + destruct (dotdot <? length out); [apply IH; lia|].
      destruct (negb rooted); apply IH; lia.
    + match goal with
      | |- context [copyElement ?s ?o] =>
          pose proof (copyElement_rest rest1 (c :: o)) as Hrest;
          assert (Hstep : copyElement s o = copyElement rest1 (c :: o))
            by (cbn [copyElement]; rewrite Hc; reflexivity);
          rewrite Hstep; destruct (copyElement rest1 (c :: o)) as [rest3 out2]
      end.
      cbn [fst] in Hrest. apply IH; lia.
Qed.

(** A rooted path keeps its leading slash through the loop of [path.Clean]. *)
Lemma cleanLoop_rooted fuel rest l :
  exists l', cleanLoop fuel true rest (l ++ ["/"%char]) 1 = l' ++ ["/"%char].
Proof.
  revert rest l. induction fuel as [|fuel IH]; intros rest l.
  - exists l. reflexivity.
  - cbn [cleanLoop]. destruct rest as [|c rest1]; [exists l; reflexivity|].
    destruct (Ascii.eqb c "/"); [apply IH|].
    destruct (Ascii.eqb c "." && atEndOrSlash rest1); [apply IH|].
    destruct (Ascii.eqb c "." && firstByteIs "." rest1 && atEndOrSlash (dropByte rest1)).
    + destruct (1 <? length (l ++ ["/"%char])) eqn:Hlen.
      * destruct (backtrack_rooted l Hlen) as [l1 ->]. apply IH.
      * cbn [negb]. apply IH.
    + match goal with
      | |- context [copyElement ?s ?o] =>
          assert (Ho : exists l1, o = l1 ++ ["/"%char]);
          [ | destruct Ho as [l1 ->];
              destruct (copyElement_extends s (l1 ++ ["/"%char])) as [l2 Hl2];
              destruct (copyElement s (l1 ++ ["/"%char])) as [rest3 out2] ]
      end.
      * match goal with |- context [if ?b then _ else _] => destruct b end.
        -- exists ("/"%char :: l). reflexivity.
        -- exists l. reflexivity.
      * cbn [snd] in Hl2. subst out2. rewrite app_assoc. apply IH.
Qed.

Lemma path_Clean_rooted s : exists s', path_Clean (String "/" s) = String "/" s'.
Proof.
  unfold path_Clean. change (Ascii.eqb "/" "/") with true. cbn [dropByte].
  destruct (cleanLoop_rooted (String.length (String "/" s)) s []) as [l' Hl'].
  cbn [app] in Hl'. rewrite Hl'.
  exists (String.string_of_list_ascii (rev l')).
  assert (Hrev : string_of_rev (l' ++ ["/"%char])
                 = String "/" (String.string_of_list_ascii (rev l'))).
  { unfold string_of_rev. rewrite rev_unit. reflexivity. }
  destruct l' as [|a l']; [reflexivity|]. exact Hrev.
Qed.

(** The canonical form of a request path always starts with a slash. *)
Lemma cleanPath_rooted p : exists s, cleanPath p = String "/" s.
Proof.
  destruct p as [|c t]; [exists EmptyString; reflexivity|].
  unfold cleanPath.
  assert (Hp : exists t', (if Ascii.eqb c "/" then String c t else "/" +:+ String c t)
                          = String "/" t').
  { destruct (Ascii.eqb_spec c "/") as [->|_]; eexists; reflexivity. }
  destruct Hp as [t' ->].
  destruct (path_Clean_rooted t') as [s' ->].
  destruct (endsWithSlash (String "/" t') && negb (String.eqb (String "/" s') "/")).
  - destruct ((String.length (String "/" t') =? String.length (String "/" s') + 1)%nat
              && strings_HasPrefix (String "/" t') (String "/" s'));
      eexists; reflexivity.
  - eexists; reflexivity.
Qed.

Lemma strings_HasPrefix_slash p : strings_HasPrefix p "/" = firstByteIs "/" p.
Proof.
  destruct p as [|a p]; [reflexivity|].
  unfold strings_HasPrefix. cbn [String.prefix firstByteIs].
  destruct (Ascii.ascii_dec "/" a) as [<-|Hne].
  - destruct p; reflexivity.
  - symmetry. apply Ascii.eqb_neq. congruence.
Qed.

(** ** The default mux *)

Section DefaultMux.
Context {L : NetURL}.

Lemma defaultMux_m p :
  mux_m defaultMux !! p = if String.eqb p "/" then Some hello else None.
Proof.
  unfold defaultMux, ServeMux_HandleFunc, http_NewServeMux. cbn [mux_m].
  rewrite lookup_insert, lookup_empty.
  destruct (String.eqb_spec p "/") as [->|Hne].
  - rewrite decide_True; reflexivity.
  - rewrite decide_False; [reflexivity | congruence].
Qed.

Lemma append_slash_not_root p : String.eqb (p +:+ "/") "/" = String.eqb p "".
Proof.
  destruct p as [|a p]; [reflexivity|].
  change (String.eqb (String a p) "") with false.
  apply String.eqb_neq. cbn [String.append]. intros H.
  injection H as _ H. destruct p; discriminate.
Qed.

Lemma defaultMux_shouldRedirect p : ServeMux_shouldRedirect defaultMux p = false.
Proof.
  unfold ServeMux_shouldRedirect. rewrite !defaultMux_m, append_slash_not_root.
  destruct (String.eqb p "/"); [reflexivity|].
  destruct (String.eqb p ""); reflexivity.
Qed.

Lemma defaultMux_handler p :
  ServeMux_handler defaultMux p = if firstByteIs "/" p then hello else http_NotFound.
Proof.
  unfold ServeMux_handler, ServeMux_match. rewrite defaultMux_m.
  destruct (String.eqb_spec p "/") as [->|_]; [reflexivity|].
  cbn. rewrite strings_HasPrefix_slash. destruct (firstByteIs "/" p); reflexivity.
Qed.

(** What the mux of [defaultMux] does with a request. *)
Lemma defaultMux_ServeHTTP w r :
  ServeMux_ServeHTTP defaultMux w r =
    let p := url.Path (ReqURL r) in
    if String.eqb (RequestURI r) "*" then
      WriteHeader http_StatusBadRequest
        (if ProtoAtLeast r 1 1 then Header_Set "Connection" "close" w else w)
    else if String.eqb (Method r) "CONNECT" then
      if firstByteIs "/" p then hello w r else http_NotFound w r
    else if String.eqb (cleanPath p) p then hello w r
    else http_Redirect w r
           (url_String (url.mkURL "" "" (cleanPath p) (url.RawQuery (ReqURL r))))
           http_StatusMovedPermanently.
Proof.
  unfold ServeMux_ServeHTTP, ServeMux_Handler. cbv zeta.
  destruct (String.eqb (RequestURI r) "*"); [reflexivity|].
  rewrite !defaultMux_shouldRedirect, defaultMux_handler.
  destruct (String.eqb (Method r) "CONNECT").
  - destruct (firstByteIs "/" (url.Path (ReqURL r))); reflexivity.
  - destruct (String.eqb_spec (cleanPath (url.Path (ReqURL r))) (url.Path (ReqURL r)))
      as [Heq|_]; [|reflexivity].
    cbn [negb]. destruct (cleanPath_rooted (url.Path (ReqURL r))) as [s Hs].
    rewrite <- Heq, Hs. reflexivity.
Qed.

(** A request in canonical form reaches [hello], whatever its method. *)
Lemma defaultMux_canonical w r :
  RequestURI r <> "*" ->
  cleanPath (url.Path (ReqURL r)) = url.Path (ReqURL r) ->
  ServeMux_ServeHTTP defaultMux w r = hello w r.
Proof.
  intros Huri Hclean. rewrite defaultMux_ServeHTTP. cbv zeta.
  destruct (String.eqb_spec (RequestURI r) "*") as [|_]; [contradiction|].
  destruct (cleanPath_rooted (url.Path (ReqURL r))) as [s Hs].
  rewrite Hclean in Hs |- *. rewrite Hs, String.eqb_refl. cbn [firstByteIs].
  destruct (String.eqb (Method r) "CONNECT"); reflexivity.
Qed.

Lemma chain_miss tables default w r :
  Forall (fun t : gmap string string => t !! url.Path (ReqURL r) = None) tables ->
  chain tables default w r = default w r.
Proof.
  induction 1 as [|t tables Ht _ IH]; [reflexivity|].
  cbn [chain foldr]. rewrite MapHandler_miss by exact Ht. exact IH.
Qed.

Lemma chain_firstMatch tables default w r :
  chain tables default w r =
    match firstMatch tables (url.Path (ReqURL r)) with
    | Some destination => http_Redirect w r destination http_StatusFound
    | None => default w r
    end.
Proof.
  induction tables as [|t tables IH]; [reflexivity|].
  cbn [chain foldr firstMatch]. unfold MapHandler at 1.
  destruct (t !! url.Path (ReqURL r)); [reflexivity | exact IH].
Qed.

End DefaultMux.

(** * The claims *)

(** C1, as stated, fails: the table maps [/a] to [/é], and whatever
    [url.Parse] makes of that URL, the [Location] header of the response to
    [GET /a] is not [/é], because [http.Redirect] escapes the bytes that are
    not ASCII. *)
Lemma C1_location_is_escaped :
  let table : gmap string string := {[ "/a" := nonASCIIPath ]} in
  let r := request "GET" "/a" in
  table !! url.Path (ReqURL r) = Some nonASCIIPath
  /\ ~ (exists L : NetURL,
         Header (MapHandler table hello newResponseWriter r) !! "Location"
         = Some [nonASCIIPath]).
Proof.
  split; [vm_compute; reflexivity|].
  intros [L H].
  rewrite MapHandler_hit with (destination := nonASCIIPath) in H
    by (vm_compute; reflexivity).
  rewrite http_Redirect_Location in H. injection H as H.
  pose proof (hexEscapeNonASCII_isASCII
                (redirectURL (request "GET" "/a") nonASCIIPath)) as HA.
  rewrite H in HA. vm_compute in HA. discriminate HA.
Qed.

(** C1 (amended): when the request path is a key of the table, the handler
    returned by [MapHandler] answers a writer whose header is not yet
    written with status 302 and a [Location] header that holds the mapped
    URL as [http.Redirect] writes it: made absolute against the request
    path when it parses with neither scheme nor host, and with every
    non-ASCII byte percent-escaped.  For an ASCII URL that [url.Parse]
    rejects or in which it finds a scheme or a host, the header is the
    mapped URL itself.  The response is the same for every fallback
    handler: the fallback is not invoked. *)
Theorem C1_hit_redirects {L : NetURL} (table : gmap string string)
    (fallbackHandler : Handler) (rw : ResponseWriter) (r : Request)
    (destination : string) :
  table !! url.Path (ReqURL r) = Some destination ->
  status rw = None ->
  let rw' := MapHandler table fallbackHandler rw r in
  status rw' = Some http_StatusFound
  /\ Header rw' !! "Location" = Some [hexEscapeNonASCII (redirectURL r destination)]
  /\ (isASCII destination = true -> keptByRedirect destination ->
      Header rw' !! "Location" = Some [destination])
  /\ (forall other : Handler, MapHandler table other rw r = rw').
Proof.
  intros Hhit Hfresh rw'. subst rw'.
  rewrite (MapHandler_hit _ _ _ _ _ Hhit).
  split; [apply http_Redirect_status, Hfresh|].
  split; [apply http_Redirect_Location|].
  split.
  - intros Hascii Hkept.
    rewrite http_Redirect_Location, redirectURL_kept, hexEscapeNonASCII_id; auto.
  - intros other. apply MapHandler_hit, Hhit.
Qed.

(** C1 at the request [GET /yaml-godoc] and the map literal of [main]. *)
Lemma C1_hit_redirects_witness :
  let r := request "GET" "/yaml-godoc" in
  let rw' := MapHandler (L := sampleURL) pathsToUrls hello newResponseWriter r in
  pathsToUrls !! url.Path (ReqURL r) = Some "https://godoc.org/gopkg.in/yaml.v2"
  /\ status rw' = Some 302
  /\ Header rw' !! "Location" = Some ["https://godoc.org/gopkg.in/yaml.v2"].
Proof.
  assert (Hhit : pathsToUrls !! url.Path (ReqURL (request "GET" "/yaml-godoc"))
                 = Some "https://godoc.org/gopkg.in/yaml.v2")
    by (vm_compute; reflexivity).
  destruct (C1_hit_redirects (L := sampleURL) pathsToUrls hello newResponseWriter
              (request "GET" "/yaml-godoc") _ Hhit eq_refl)
    as (Hstatus & _ & Hloc & _).
  split; [exact Hhit|]. split; [exact Hstatus|].
  apply Hloc; reflexivity.
Defined.

(** C2, as stated, fails: [//nowhere] is no key of the table, yet the
    response to [GET //nowhere] has not status 200, whatever the URL
    functions of the library return: the mux answers a path that is not in
    canonical form with a permanent redirect to [/nowhere]. *)
Lemma C2_unclean_path_is_redirected :
  let r := request "GET" "//nowhere" in
  pathsToUrls !! url.Path (ReqURL r) = None
  /\ ~ (exists L : NetURL,
         status (chain [pathsToUrls] (ServeMux_ServeHTTP defaultMux)
                   newResponseWriter r)
         = Some http_StatusOK).
Proof.
  split; [vm_compute; reflexivity|].
  intros [L H].
  rewrite chain_miss in H by (repeat constructor).
  rewrite defaultMux_ServeHTTP in H.
  change (status (http_Redirect newResponseWriter (request "GET" "//nowhere")
            (url_String (url.mkURL "" "" "/nowhere" ""))
            http_StatusMovedPermanently) = Some http_StatusOK) in H.
  rewrite http_Redirect_status in H by reflexivity.
  discriminate H.
Qed.

(** C2 (amended): a request whose path is a key of no table of the chain
    is handled by the default mux.  When moreover its target is not [*]
    and its path is in canonical form (it starts with a slash and has no
    [.] or [..] element and no repeated slash, so that [cleanPath] leaves
    it as it is), the mux runs [hello], whatever the method: on a writer
    whose header is not yet written the status is 200 and the greeting is
    appended to the body. *)
Theorem C2_miss_reaches_default {L : NetURL} (tables : list (gmap string string))
    (rw : ResponseWriter) (r : Request) :
  Forall (fun t : gmap string string => t !! url.Path (ReqURL r) = None) tables ->
  let rw' := chain tables (ServeMux_ServeHTTP defaultMux) rw r in
  rw' = ServeMux_ServeHTTP defaultMux rw r
  /\ (RequestURI r <> "*" ->
      cleanPath (url.Path (ReqURL r)) = url.Path (ReqURL r) ->
      rw' = hello rw r
      /\ body rw' = body rw +:+ "Hello, world!" +:+ newline
      /\ (status rw = None -> status rw' = Some http_StatusOK)).
Proof.
  intros Hmiss rw'. subst rw'. rewrite (chain_miss _ _ _ _ Hmiss).
  split; [reflexivity|]. intros Huri Hclean.
  rewrite (defaultMux_canonical _ _ Huri Hclean). unfold hello.
  split; [reflexivity|]. split; [apply fmt_Fprintln_body|].
  intros Hfresh. rewrite fmt_Fprintln_status, Hfresh. reflexivity.
Qed.

(** C2 at the request [POST /nonexistent] and a chain of two tables. *)
Lemma C2_miss_reaches_default_witness :
  let r := request "POST" "/nonexistent" in
  let rw' := chain (L := sampleURL) [{[ "/a" := "/b" ]}; pathsToUrls]
               (ServeMux_ServeHTTP (L := sampleURL) defaultMux)
               newResponseWriter r in
  Forall (fun t : gmap string string => t !! url.Path (ReqURL r) = None)
    [{[ "/a" := "/b" ]}; pathsToUrls]
  /\ status rw' = Some 200
  /\ body rw' = "Hello, world!" +:+ newline.
Proof.
  assert (Hmiss : Forall (fun t : gmap string string =>
                    t !! url.Path (ReqURL (request "POST" "/nonexistent")) = None)
                    [{[ "/a" := "/b" ]}; pathsToUrls])
    by (repeat constructor).
  destruct (C2_miss_reaches_default (L := sampleURL) _ newResponseWriter _ Hmiss)
    as [_ Hgreet].
  destruct Hgreet as (_ & Hbody & Hstatus); [discriminate | reflexivity |].
  split; [exact Hmiss|]. split; [apply Hstatus; reflexivity | exact Hbody].
Defined.

(** C7: with [H1] built from table [T1] over a default [D], and [H2] built
    from table [T2] over [H1], a request whose path is a key of [T1] and
    not of [T2] gets from [H2] exactly the response that [H1] alone gives:
    the redirect with status 302 to the URL that [T1] maps the path to. *)
Theorem C7_fallback_is_transitive {L : NetURL} (T1 T2 : gmap string string)
    (D : Handler) (rw : ResponseWriter) (r : Request) (destination : string) :
  T1 !! url.Path (ReqURL r) = Some destination ->
  T2 !! url.Path (ReqURL r) = None ->
  let H1 := MapHandler T1 D in
  let H2 := MapHandler T2 H1 in
  H2 rw r = H1 rw r
  /\ H1 rw r = http_Redirect rw r destination http_StatusFound
  /\ (status rw = None -> status (H2 rw r) = Some http_StatusFound)
  /\ Header (H2 rw r) !! "Location"
     = Some [hexEscapeNonASCII (redirectURL r destination)].
Proof.
  intros Hhit Hmiss H1 H2. subst H1 H2.
  rewrite (MapHandler_miss _ _ _ _ Hmiss), (MapHandler_hit _ _ _ _ _ Hhit).
  split; [reflexivity|]. split; [reflexivity|].
  split; [apply http_Redirect_status | apply http_Redirect_Location].
Qed.

(** C7 with the map literal of [main] as [T1] and a table that has only
    [/a] as [T2]. *)
Lemma C7_fallback_is_transitive_witness :
  let r := request "GET" "/yaml-godoc" in
  let T2 : gmap string string := {[ "/a" := "http://example.com/a" ]} in
  let H1 := MapHandler (L := sampleURL) pathsToUrls hello in
  let H2 := MapHandler (L := sampleURL) T2 H1 in
  pathsToUrls !! url.Path (ReqURL r) = Some "https://godoc.org/gopkg.in/yaml.v2"
  /\ T2 !! url.Path (ReqURL r) = None
  /\ H2 newResponseWriter r = H1 newResponseWriter r
  /\ status (H2 newResponseWriter r) = Some 302.
Proof.
  assert (Hhit : pathsToUrls !! url.Path (ReqURL (request "GET" "/yaml-godoc"))
                 = Some "https://godoc.org/gopkg.in/yaml.v2")
    by (vm_compute; reflexivity).
  assert (Hmiss : ({[ "/a" := "http://example.com/a" ]} : gmap string string)
                    !! url.Path (ReqURL (request "GET" "/yaml-godoc")) = None)
    by (vm_compute; reflexivity).
  destruct (C7_fallback_is_transitive (L := sampleURL) _ _ hello newResponseWriter
              _ _ Hhit Hmiss) as (Hsame & _ & Hstatus & _).
  split; [exact Hhit|]. split; [exact Hmiss|]. split; [exact Hsame|].
  apply Hstatus. reflexivity.
Defined.

(** C10: for a fixed table, fallback and writer, two requests with the
    same URL path have the same outcome: either both are redirected to
    the URL that the table maps the path to, with the same status and the
    same [Location] header, or both are passed to the fallback; the
    method, the query and the rest of the request do not decide it. *)
Theorem C10_path_decides_outcome {L : NetURL} (table : gmap string string)
    (fallbackHandler : Handler) (rw : ResponseWriter) (r1 r2 : Request) :
  url.Path (ReqURL r1) = url.Path (ReqURL r2) ->
  let h := MapHandler table fallbackHandler in
  (exists destination,
      table !! url.Path (ReqURL r1) = Some destination
      /\ h rw r1 = http_Redirect rw r1 destination http_StatusFound
      /\ h rw r2 = http_Redirect rw r2 destination http_StatusFound
      /\ status (h rw r1) = status (h rw r2)
      /\ Header (h rw r1) !! "Location" = Header (h rw r2) !! "Location")
  \/ (table !! url.Path (ReqURL r1) = None
      /\ h rw r1 = fallbackHandler rw r1
      /\ h rw r2 = fallbackHandler rw r2).
Proof.
  intros Hpath h. subst h.
  destruct (table !! url.Path (ReqURL r1)) as [destination|] eqn:Hlook.
  - left. exists destination.
    assert (Hlook2 := Hlook). rewrite Hpath in Hlook2.
    rewrite (MapHandler_hit _ _ _ _ _ Hlook), (MapHandler_hit _ _ _ _ _ Hlook2).
    repeat split.
    + apply http_Redirect_status_eq.
    + rewrite !http_Redirect_Location, (redirectURL_path r1 r2) by exact Hpath.
      reflexivity.
  - right. assert (Hlook2 := Hlook). rewrite Hpath in Hlook2.
    rewrite (MapHandler_miss _ _ _ _ Hlook), (MapHandler_miss _ _ _ _ Hlook2).
    repeat split.
Qed.

(** C10 at two requests for [/yaml-godoc] that differ in method, query
    and protocol version. *)
Lemma C10_path_decides_outcome_witness :
  let r1 := request "GET" "/yaml-godoc" in
  let r2 := {| Method := "POST"; ReqURL := url.mkURL "" "" "/yaml-godoc" "q=1";
               RequestURI := "/yaml-godoc?q=1"; ProtoMajor := 1; ProtoMinor := 0 |} in
  let h := MapHandler (L := sampleURL) pathsToUrls hello in
  url.Path (ReqURL r1) = url.Path (ReqURL r2)
  /\ status (h newResponseWriter r1) = status (h newResponseWriter r2)
  /\ Header (h newResponseWriter r1) !! "Location"
     = Header (h newResponseWriter r2) !! "Location".
Proof.
  intros r1 r2 h. split; [reflexivity|].
  destruct (C10_path_decides_outcome (L := sampleURL) pathsToUrls hello
              newResponseWriter r1 r2 eq_refl)
    as [(destination & _ & _ & _ & Hstatus & Hloc) | (Hnone & _)].
  - split; [exact Hstatus | exact Hloc].
  - vm_compute in Hnone. discriminate Hnone.
Defined.

(** ** The table builder *)

Lemma pathSliceToMapConversion_snoc pUrls pU :
  pathSliceToMapConversion (pUrls ++ [pU])
  = <[Path pU := URL pU]> (pathSliceToMapConversion pUrls).
Proof. unfold pathSliceToMapConversion. rewrite fold_left_app. reflexivity. Qed.

Lemma pathSliceToMapConversion_lookup pUrls p :
  pathSliceToMapConversion pUrls !! p
  = URL <$> last (filter (fun pU => Path pU = p) pUrls).
Proof.
  induction pUrls as [|pU pUrls IH] using rev_ind; [reflexivity|].
  rewrite pathSliceToMapConversion_snoc, filter_app.
  destruct (decide (Path pU = p)) as [Heq|Hne].
  - rewrite filter_cons_True, filter_nil, last_snoc by exact Heq.
    rewrite Heq. apply lookup_insert_eq.
  - rewrite filter_cons_False, filter_nil, app_nil_r by exact Hne.
    rewrite lookup_insert_ne by exact Hne. exact IH.
Qed.

(** The loop of the builder commutes with a reordering of records whose
    paths are pairwise distinct, from any starting table. *)
Lemma fold_insert_Permutation (pUrls pUrls' : list pathURL) :
  pUrls ≡ₚ pUrls' ->
  NoDup (Path <$> pUrls) ->
  forall result : gmap string string,
    fold_left (fun result pU => <[Path pU := URL pU]> result) pUrls result
    = fold_left (fun result pU => <[Path pU := URL pU]> result) pUrls' result.
Proof.
  induction 1 as [|x l l' Hperm IH|x y l|l l' l'' Hperm1 IH1 Hperm2 IH2];
    intros Hnodup result.
  - reflexivity.
  - cbn [fold_left]. apply IH. apply NoDup_cons in Hnodup. apply Hnodup.
  - cbn [fold_left]. f_equal. apply insert_insert_ne.
    cbn [fmap list_fmap] in Hnodup. apply NoDup_cons in Hnodup as [Hnotin _].
    intros Heq. apply Hnotin. rewrite Heq. left.
  - rewrite IH1 by exact Hnodup. apply IH2.
    rewrite <- Hperm1. exact Hnodup.
Qed.

(** C3: the table that the builder returns maps every path to the URL of
    the last record of the sequence that has this path, and has no other
    key; the sequence [{/x, A}, {/x, B}] gives a table that maps [/x] to
    [B]. *)
Theorem C3_last_record_wins :
  (forall (pUrls : list pathURL) (p : string),
      pathSliceToMapConversion pUrls !! p
      = URL <$> last (filter (fun pU => Path pU = p) pUrls))
  /\ pathSliceToMapConversion [mkPathURL "/x" "A"; mkPathURL "/x" "B"] !! "/x"
     = Some "B".
Proof.
  split; [exact pathSliceToMapConversion_lookup|].
  rewrite pathSliceToMapConversion_lookup. reflexivity.
Qed.

(** C8: two sequences of records that are permutations of each other, the
    paths of the records being pairwise distinct, give the same table. *)
Theorem C8_order_independent (pUrls pUrls' : list pathURL) :
  NoDup (Path <$> pUrls) ->
  pUrls ≡ₚ pUrls' ->
  pathSliceToMapConversion pUrls = pathSliceToMapConversion pUrls'.
Proof.
  intros Hnodup Hperm. unfold pathSliceToMapConversion.
  apply fold_insert_Permutation; assumption.
Qed.

(** C8 at three records and a rotation of them. *)
Lemma C8_order_independent_witness :
  let a := mkPathURL "/a" "http://example.com/a" in
  let b := mkPathURL "/b" "http://example.com/b" in
  let c := mkPathURL "/c" "http://example.com/a" in
  pathSliceToMapConversion [a; b; c] = pathSliceToMapConversion [c; a; b].
Proof.
  intros a b c. apply (C8_order_independent [a; b; c] [c; a; b]).
  - cbn [fmap list_fmap Path a b c].
    apply NoDup_ListNoDup. repeat constructor; cbn [In]; intuition discriminate.
  - change [c; a; b] with ([c] ++ [a; b]). change [a; b; c] with ([a; b] ++ [c]).
    apply Permutation_app_comm.
Defined.

(** ** The constructors that parse and read *)

Section Constructors.
Context {L : NetURL} {W : World}.

Lemma openFile_run fileName calls :
  openFile fileName calls =
    (match snd (ioutil_ReadFile fileName) with
     | Some e => (EmptyString, Some e)
     | None => (fst (ioutil_ReadFile fileName), None)
     end, calls ++ [CallReadFile fileName]).
Proof.
  unfold openFile, mbind, IO_MBind, IO_bind, IO_call, IO_ret.
  destruct (ioutil_ReadFile fileName) as [data [e|]]; reflexivity.
Qed.

Lemma parseYAMLToPathURL_run data calls :
  parseYAMLToPathURL data calls =
    (match snd (yaml_Unmarshal data) with
     | Some e => ([], Some e)
     | None => (fst (yaml_Unmarshal data), None)
     end, calls ++ [CallYAMLUnmarshal data]).
Proof.
  unfold parseYAMLToPathURL, mbind, IO_MBind, IO_bind, IO_call, IO_ret.
  destruct (yaml_Unmarshal data) as [pathURLs [e|]]; reflexivity.
Qed.

Lemma parseJSONToPathURL_run data calls :
  parseJSONToPathURL data calls =
    (match snd (json_Unmarshal data) with
     | Some e => ([], Some e)
     | None => (fst (json_Unmarshal data), None)
     end, calls ++ [CallJSONUnmarshal data]).
Proof.
  unfold parseJSONToPathURL, mbind, IO_MBind, IO_bind, IO_call, IO_ret.
  destruct (json_Unmarshal data) as [pathURLs [e|]]; reflexivity.
Qed.

Lemma YAMLHandler_run yml fallbackHandler calls :
  YAMLHandler yml fallbackHandler calls =
    (match snd (yaml_Unmarshal yml) with
     | Some e => (None, Some e)
     | None =>
         (Some (MapHandler (pathSliceToMapConversion (fst (yaml_Unmarshal yml)))
                  fallbackHandler), None)
     end, calls ++ [CallYAMLUnmarshal yml]).
Proof.
  unfold YAMLHandler, mbind, IO_MBind, IO_bind. rewrite parseYAMLToPathURL_run.
  destruct (yaml_Unmarshal yml) as [pathURLs [e|]]; reflexivity.
Qed.

Lemma JSONFileHandler_run jsonFileName fallbackHandler calls :
  JSONFileHandler jsonFileName fallbackHandler calls =
    match snd (ioutil_ReadFile jsonFileName) with
    | Some e => ((None, Some e), calls ++ [CallReadFile jsonFileName])
    | None =>
        let jsonData := fst (ioutil_ReadFile jsonFileName) in
        (match snd (json_Unmarshal jsonData) with
         | Some e => (None, Some e)
         | None =>
             (Some (MapHandler (pathSliceToMapConversion (fst (json_Unmarshal jsonData)))
                      fallbackHandler), None)
         end, calls ++ [CallReadFile jsonFileName; CallJSONUnmarshal jsonData])
    end.
Proof.
  unfold JSONFileHandler, mbind, IO_MBind, IO_bind. rewrite openFile_run.
  destruct (ioutil_ReadFile jsonFileName) as [jsonData [e|]]; [reflexivity|].
  cbn [fst snd]. rewrite parseJSONToPathURL_run, <- app_assoc.
  destruct (json_Unmarshal jsonData) as [pathURLs [e|]]; reflexivity.
Qed.

Lemma YAMLFileHandler_run yamlFileName fallbackHandler calls :
  YAMLFileHandler yamlFileName fallbackHandler calls =
    match snd (ioutil_ReadFile yamlFileName) with
    | Some e => ((None, Some e), calls ++ [CallReadFile yamlFileName])
    | None =>
        let yamlBytes := fst (ioutil_ReadFile yamlFileName) in
        (match snd (yaml_Unmarshal yamlBytes) with
         | Some e => (None, Some e)
         | None =>
             (Some (MapHandler (pathSliceToMapConversion (fst (yaml_Unmarshal yamlBytes)))
                      fallbackHandler), None)
         end, calls ++ [CallReadFile yamlFileName; CallYAMLUnmarshal yamlBytes])
    end.
Proof.
  unfold YAMLFileHandler, mbind, IO_MBind, IO_bind. rewrite openFile_run.
  destruct (ioutil_ReadFile yamlFileName) as [yamlBytes [e|]]; [reflexivity|].
  cbn [fst snd]. rewrite YAMLHandler_run, <- app_assoc. reflexivity.
Qed.

End Constructors.

(** C4: [YAMLHandler] makes one call of [yaml.Unmarshal] on its input.
    When the call reports an error (the input is malformed), the result is
    the [nil] handler with that error, whatever the decoder had stored
    before it failed; when it reports none, the result is the map handler
    over the table of all decoded records, with a [nil] error.  So for
    every input exactly one of handler and error is [nil]. *)
Theorem C4_error_or_handler {L : NetURL} {W : World} (yml : string)
    (fallbackHandler : Handler) (calls : list Call) :
  let result := fst (YAMLHandler yml fallbackHandler calls) in
  snd (YAMLHandler yml fallbackHandler calls) = calls ++ [CallYAMLUnmarshal yml]
  /\ (forall e, snd (yaml_Unmarshal yml) = Some e -> result = (None, Some e))
  /\ (snd (yaml_Unmarshal yml) = None ->
      result = (Some (MapHandler (pathSliceToMapConversion (fst (yaml_Unmarshal yml)))
                        fallbackHandler), None))
  /\ (fst result = None <-> snd result <> None).
Proof.
  intros result. subst result. rewrite YAMLHandler_run. cbn [fst snd].
  destruct (snd (yaml_Unmarshal yml)) as [e|].
  - split; [reflexivity|]. split; [intros e' [= <-]; reflexivity|].
    split; [discriminate|]. split; [discriminate | reflexivity].
  - split; [reflexivity|]. split; [discriminate|].
    split; [reflexivity|]. split; [discriminate|].
    intros H. exfalso. apply H. reflexivity.
Qed.

(** C4 at the malformed document. *)
Lemma C4_error_or_handler_witness :
  snd (yaml_Unmarshal (World := sampleWorld) malformedYAML)
  = Some "yaml: unmarshal errors"
  /\ fst (YAMLHandler (L := sampleURL) (W := sampleWorld) malformedYAML hello [])
     = (None, Some "yaml: unmarshal errors").
Proof.
  split; [reflexivity|].
  apply (C4_error_or_handler (L := sampleURL) (W := sampleWorld) malformedYAML hello []).
  reflexivity.
Defined.

(** C5: [JSONFileHandler] and [YAMLFileHandler] first call
    [ioutil.ReadFile].  When that call reports an error, each returns the
    [nil] handler with that error and has made no other call; a call of
    [json.Unmarshal] or [yaml.Unmarshal] is made only after a read without
    error, on the bytes read. *)
Theorem C5_read_error_first {L : NetURL} {W : World} (fileName : string)
    (fallbackHandler : Handler) (calls : list Call) :
  (forall e, snd (ioutil_ReadFile fileName) = Some e ->
     JSONFileHandler fileName fallbackHandler calls
     = ((None, Some e), calls ++ [CallReadFile fileName])
     /\ YAMLFileHandler fileName fallbackHandler calls
        = ((None, Some e), calls ++ [CallReadFile fileName]))
  /\ (snd (ioutil_ReadFile fileName) = None ->
      snd (JSONFileHandler fileName fallbackHandler calls)
      = calls ++ [CallReadFile fileName;
                  CallJSONUnmarshal (fst (ioutil_ReadFile fileName))]
      /\ snd (YAMLFileHandler fileName fallbackHandler calls)
         = calls ++ [CallReadFile fileName;
                     CallYAMLUnmarshal (fst (ioutil_ReadFile fileName))]).
Proof.
  rewrite JSONFileHandler_run, YAMLFileHandler_run.
  destruct (snd (ioutil_ReadFile fileName)) as [e|].
  - split; [|discriminate]. intros e' [= <-]. split; reflexivity.
  - split; [discriminate|]. intros _. split; reflexivity.
Qed.

(** C5 at a file that does not exist. *)
Lemma C5_read_error_first_witness :
  let e := "open missing.json: no such file or directory" in
  snd (ioutil_ReadFile (World := sampleWorld) "missing.json") = Some e
  /\ JSONFileHandler (L := sampleURL) (W := sampleWorld) "missing.json" hello []
     = ((None, Some e), [CallReadFile "missing.json"])
  /\ YAMLFileHandler (L := sampleURL) (W := sampleWorld) "missing.json" hello []
     = ((None, Some e), [CallReadFile "missing.json"]).
Proof.
  split; [reflexivity|].
  apply (C5_read_error_first (L := sampleURL) (W := sampleWorld) "missing.json" hello []).
  reflexivity.
Defined.

(** C9: when the bytes of the JSON file and the YAML bytes decode without
    error to the same sequence of records, [JSONFileHandler] and
    [YAMLHandler], given the same fallback, both return a handler and no
    error, and the two handlers give the same response to every request. *)
Theorem C9_JSON_path_equals_YAML_path {L : NetURL} {W : World}
    (jsonFileName jsonData yml : string) (pathURLs : list pathURL)
    (fallbackHandler : Handler) (calls calls' : list Call) :
  ioutil_ReadFile jsonFileName = (jsonData, None) ->
  json_Unmarshal jsonData = (pathURLs, None) ->
  yaml_Unmarshal yml = (pathURLs, None) ->
  exists jsonFileHandler yamlHandler : Handler,
    fst (JSONFileHandler jsonFileName fallbackHandler calls)
    = (Some jsonFileHandler, None)
    /\ fst (YAMLHandler yml fallbackHandler calls') = (Some yamlHandler, None)
    /\ forall rw r, jsonFileHandler rw r = yamlHandler rw r.
Proof.
  intros Hread Hjson Hyaml.
  rewrite JSONFileHandler_run, YAMLHandler_run, Hread. cbn [fst snd].
  rewrite Hjson, Hyaml. cbn [fst snd].
  eexists _, _. split; [reflexivity|]. split; reflexivity.
Qed.

(** C9 at a JSON file and a YAML document with the same single record. *)
Lemma C9_JSON_path_equals_YAML_path_witness :
  ioutil_ReadFile (World := sampleWorld) "paths.json" = (sampleJSON, None)
  /\ json_Unmarshal (World := sampleWorld) sampleJSON = (sampleRecords, None)
  /\ yaml_Unmarshal (World := sampleWorld) sampleYAML = (sampleRecords, None)
  /\ exists jsonFileHandler yamlHandler : Handler,
       fst (JSONFileHandler (L := sampleURL) (W := sampleWorld) "paths.json" hello [])
       = (Some jsonFileHandler, None)
       /\ fst (YAMLHandler (L := sampleURL) (W := sampleWorld) sampleYAML hello [])
          = (Some yamlHandler, None)
       /\ forall rw r, jsonFileHandler rw r = yamlHandler rw r.
Proof.
  split; [reflexivity|]. split; [reflexivity|]. split; [reflexivity|].
  apply (C9_JSON_path_equals_YAML_path (L := sampleURL) (W := sampleWorld)
           "paths.json" sampleJSON sampleYAML sampleRecords hello [] []);
    reflexivity.
Defined.

(** ** Startup *)

(** When the five library calls of [main] report no error, [main] reaches
    [http.ListenAndServe] with the YAML-file handler. *)
Lemma main_serves {L : NetURL} {W : World} (jsonFileName yamlFileName : string)
    (calls : list Call) embedded jsonData jsonRecords yamlData yamlRecords :
  yaml_Unmarshal yaml = (embedded, None) ->
  ioutil_ReadFile jsonFileName = (jsonData, None) ->
  json_Unmarshal jsonData = (jsonRecords, None) ->
  ioutil_ReadFile yamlFileName = (yamlData, None) ->
  yaml_Unmarshal yamlData = (yamlRecords, None) ->
  main jsonFileName yamlFileName calls =
    (ListenAndServe ":8080"
       (MapHandler (pathSliceToMapConversion yamlRecords)
          (MapHandler (pathSliceToMapConversion jsonRecords)
             (MapHandler (pathSliceToMapConversion embedded)
                (MapHandler pathsToUrls (ServeMux_ServeHTTP defaultMux))))),
     calls ++ [CallYAMLUnmarshal yaml;
               CallReadFile jsonFileName; CallJSONUnmarshal jsonData;
               CallReadFile yamlFileName; CallYAMLUnmarshal yamlData;
               CallPrintln "Starting the server on :8080"]).
Proof.
  intros Hembedded HreadJ Hjson HreadY Hyaml.
  unfold main, mbind, IO_MBind, IO_bind.
  rewrite YAMLHandler_run, Hembedded. cbn [fst snd].
  rewrite JSONFileHandler_run, HreadJ. cbn [fst snd]. rewrite Hjson. cbn [fst snd].
  rewrite YAMLFileHandler_run, HreadY. cbn [fst snd]. rewrite Hyaml. cbn [fst snd].
  unfold IO_call, IO_ret, HandlerFunc. rewrite <- !app_assoc. reflexivity.
Qed.

(** When [main] reaches [http.ListenAndServe], its five library calls have
    reported no error and the handler is the YAML-file handler. *)
Lemma main_serves_only_if {L : NetURL} {W : World} (jsonFileName yamlFileName : string)
    (calls calls' : list Call) (addr : string) (root : Handler) :
  main jsonFileName yamlFileName calls = (ListenAndServe addr root, calls') ->
  exists embedded jsonData jsonRecords yamlData yamlRecords,
    yaml_Unmarshal yaml = (embedded, None)
    /\ ioutil_ReadFile jsonFileName = (jsonData, None)
    /\ json_Unmarshal jsonData = (jsonRecords, None)
    /\ ioutil_ReadFile yamlFileName = (yamlData, None)
    /\ yaml_Unmarshal yamlData = (yamlRecords, None)
    /\ calls' = calls ++ [CallYAMLUnmarshal yaml;
                          CallReadFile jsonFileName; CallJSONUnmarshal jsonData;
                          CallReadFile yamlFileName; CallYAMLUnmarshal yamlData;
                          CallPrintln "Starting the server on :8080"]
    /\ addr = ":8080"
    /\ root = MapHandler (pathSliceToMapConversion yamlRecords)
                (MapHandler (pathSliceToMapConversion jsonRecords)
                   (MapHandler (pathSliceToMapConversion embedded)
                      (MapHandler pathsToUrls (ServeMux_ServeHTTP defaultMux)))).
Proof.
  intros Hmain.
  destruct (yaml_Unmarshal yaml) as [embedded errE] eqn:Hembedded.
  destruct (ioutil_ReadFile jsonFileName) as [jsonData errRJ] eqn:HreadJ.
  destruct (json_Unmarshal jsonData) as [jsonRecords errJ] eqn:Hjson.
  destruct (ioutil_ReadFile yamlFileName) as [yamlData errRY] eqn:HreadY.
  destruct (yaml_Unmarshal yamlData) as [yamlRecords errY] eqn:Hyaml.
  unfold main, mbind, IO_MBind, IO_bind in Hmain.
  rewrite YAMLHandler_run, Hembedded in Hmain. cbn [fst snd] in Hmain.
  destruct errE as [e|]; [discriminate Hmain|].
  rewrite JSONFileHandler_run, HreadJ in Hmain. cbn [fst snd] in Hmain.
  destruct errRJ as [e|]; [discriminate Hmain|].
  cbv zeta in Hmain. rewrite Hjson in Hmain. cbn [fst snd] in Hmain.
  destruct errJ as [e|]; [discriminate Hmain|].
  rewrite YAMLFileHandler_run, HreadY in Hmain. cbn [fst snd] in Hmain.
  destruct errRY as [e|]; [discriminate Hmain|].
  cbv zeta in Hmain. rewrite Hyaml in Hmain. cbn [fst snd] in Hmain.
  destruct errY as [e|]; [discriminate Hmain|].
  unfold IO_call, IO_ret, HandlerFunc in Hmain. rewrite <- !app_assoc in Hmain.
  injection Hmain as Haddr Hroot Hcalls.
  exists embedded, jsonData, jsonRecords, yamlData, yamlRecords.
  repeat (split; [first [reflexivity | assumption | symmetry; assumption]|]).
  symmetry. exact Hroot.
Qed.

(** C6: [main] reaches [http.ListenAndServe] exactly when its five library
    calls report no error.  The handlers are then built in the order
    default mux, map handler over the mux, embedded-YAML handler over the
    map handler, JSON-file handler over that, YAML-file handler over that,
    as the order of the library calls shows; the YAML-file handler is the
    one the server is started with, on [:8080]; and a request is answered
    from the first of the tables of the YAML file, the JSON file, the
    embedded YAML and the map literal that has its path, and by the mux
    when none has it. *)
Theorem C6_chain_order {L : NetURL} {W : World} (jsonFileName yamlFileName : string)
    (calls : list Call) :
  (forall embedded jsonData jsonRecords yamlData yamlRecords,
      yaml_Unmarshal yaml = (embedded, None) ->
      ioutil_ReadFile jsonFileName = (jsonData, None) ->
      json_Unmarshal jsonData = (jsonRecords, None) ->
      ioutil_ReadFile yamlFileName = (yamlData, None) ->
      yaml_Unmarshal yamlData = (yamlRecords, None) ->
      let mux := ServeMux_ServeHTTP defaultMux in
      let mapHandler := MapHandler pathsToUrls mux in
      let yamlHandler := MapHandler (pathSliceToMapConversion embedded) mapHandler in
      let jsonFileHandler :=
        MapHandler (pathSliceToMapConversion jsonRecords) yamlHandler in
      let yamlFileHandler :=
        MapHandler (pathSliceToMapConversion yamlRecords) jsonFileHandler in
      main jsonFileName yamlFileName calls
      = (ListenAndServe ":8080" yamlFileHandler,
         calls ++ [CallYAMLUnmarshal yaml;
                   CallReadFile jsonFileName; CallJSONUnmarshal jsonData;
                   CallReadFile yamlFileName; CallYAMLUnmarshal yamlData;
                   CallPrintln "Starting the server on :8080"])
      /\ forall rw r,
           yamlFileHandler rw r =
             match firstMatch [pathSliceToMapConversion yamlRecords;
                               pathSliceToMapConversion jsonRecords;
                               pathSliceToMapConversion embedded;
                               pathsToUrls] (url.Path (ReqURL r)) with
             | Some destination => http_Redirect rw r destination http_StatusFound
             | None => mux rw r
             end)
  /\ (forall addr root calls',
        main jsonFileName yamlFileName calls = (ListenAndServe addr root, calls') ->
        exists embedded jsonData jsonRecords yamlData yamlRecords,
          yaml_Unmarshal yaml = (embedded, None)
          /\ ioutil_ReadFile jsonFileName = (jsonData, None)
          /\ json_Unmarshal jsonData = (jsonRecords, None)
          /\ ioutil_ReadFile yamlFileName = (yamlData, None)
          /\ yaml_Unmarshal yamlData = (yamlRecords, None)).
Proof.
  split.
  - intros embedded jsonData jsonRecords yamlData yamlRecords
           Hembedded HreadJ Hjson HreadY Hyaml. cbv zeta.
    split; [apply main_serves; assumption|].
    intros rw r.
    exact (chain_firstMatch
             [pathSliceToMapConversion yamlRecords; pathSliceToMapConversion jsonRecords;
              pathSliceToMapConversion embedded; pathsToUrls]
             (ServeMux_ServeHTTP defaultMux) rw r).
  - intros addr root calls' Hmain.
    destruct (main_serves_only_if _ _ _ _ _ _ Hmain)
      as (embedded & jsonData & jsonRecords & yamlData & yamlRecords
          & Hembedded & HreadJ & Hjson & HreadY & Hyaml & _).
    exists embedded, jsonData, jsonRecords, yamlData, yamlRecords.
    repeat split; assumption.
Qed.

(** C6 with both configuration files present and well-formed. *)
Lemma C6_chain_order_witness :
  let mux := ServeMux_ServeHTTP (L := sampleURL) defaultMux in
  let root :=
    MapHandler (L := sampleURL) (pathSliceToMapConversion sampleRecords)
      (MapHandler (L := sampleURL) (pathSliceToMapConversion sampleRecords)
         (MapHandler (L := sampleURL) (pathSliceToMapConversion embeddedRecords)
            (MapHandler (L := sampleURL) pathsToUrls mux))) in
  main (L := sampleURL) (W := sampleWorld) "paths.json" "paths.yaml" []
  = (ListenAndServe ":8080" root,
     [CallYAMLUnmarshal yaml;
      CallReadFile "paths.json"; CallJSONUnmarshal sampleJSON;
      CallReadFile "paths.yaml"; CallYAMLUnmarshal sampleYAML;
      CallPrintln "Starting the server on :8080"])
  /\ forall rw r,
       root rw r =
         match firstMatch [pathSliceToMapConversion sampleRecords;
                           pathSliceToMapConversion sampleRecords;
                           pathSliceToMapConversion embeddedRecords;
                           pathsToUrls] (url.Path (ReqURL r)) with
         | Some destination =>
             http_Redirect (L := sampleURL) rw r destination http_StatusFound
         | None => mux rw r
         end.
Proof.
  exact (proj1 (C6_chain_order (L := sampleURL) (W := sampleWorld)
                  "paths.json" "paths.yaml" [])
           embeddedRecords sampleJSON sampleRecords sampleYAML sampleRecords
           eq_refl eq_refl eq_refl eq_refl eq_refl).
Defined.

(** * Further properties of the code *)

(** ** The table builder *)

Lemma fold_insert_fresh (pUrls : list pathURL) (p u : string)
    (result : gmap string string) :
  p ∉ Path <$> pUrls ->
  fold_left (fun result pU => <[Path pU := URL pU]> result) pUrls (<[p := u]> result)
  = <[p := u]> (fold_left (fun result pU => <[Path pU := URL pU]> result) pUrls result).
Proof.
  revert result. induction pUrls as [|pU pUrls IH]; intros result Hfresh.
  - reflexivity.
  - cbn [fmap list_fmap] in Hfresh. apply not_elem_of_cons in Hfresh as [Hne Hfresh].
    cbn [fold_left]. rewrite insert_insert_ne by congruence.
    apply IH, Hfresh.
Qed.

Lemma pathSliceToMapConversion_fresh (pUrls : list pathURL) (p : string) :
  p ∉ Path <$> pUrls -> pathSliceToMapConversion pUrls !! p = None.
Proof.
  induction pUrls as [|pU pUrls IH] using rev_ind; intros Hfresh.
  - reflexivity.
  - rewrite fmap_app in Hfresh. apply not_elem_of_app in Hfresh as [Hfresh Hne].
    cbn [fmap list_fmap] in Hne. apply not_elem_of_cons in Hne as [Hne _].
    rewrite pathSliceToMapConversion_snoc, lookup_insert_ne by congruence.
    apply IH, Hfresh.
Qed.

(** X1: the keys of the table are exactly the paths of the records. *)
Theorem X1_table_keys (pUrls : list pathURL) :
  dom (pathSliceToMapConversion pUrls) = list_to_set (Path <$> pUrls).
Proof.
  induction pUrls as [|pU pUrls IH] using rev_ind.
  - unfold pathSliceToMapConversion. cbn. apply dom_empty_L.
  - rewrite pathSliceToMapConversion_snoc, dom_insert_L, IH, fmap_app,
      list_to_set_app_L.
    cbn [fmap list_fmap list_to_set].
    rewrite (right_id_L ∅ (∪)). apply (comm_L (∪)).
Qed.

(** X2: the table of a concatenation is the table of the second part laid
    over the table of the first: where both have a path, the second part
    decides. *)
Theorem X2_table_of_concatenation (pUrls1 pUrls2 : list pathURL) :
  pathSliceToMapConversion (pUrls1 ++ pUrls2)
  = pathSliceToMapConversion pUrls2 ∪ pathSliceToMapConversion pUrls1.
Proof.
  induction pUrls2 as [|pU pUrls2 IH] using rev_ind.
  - rewrite app_nil_r. unfold pathSliceToMapConversion at 2. cbn [fold_left].
    rewrite (left_id_L ∅ (∪)). reflexivity.
  - rewrite app_assoc, !pathSliceToMapConversion_snoc, IH.
    apply insert_union_l.
Qed.

(** X3: the table has at most as many entries as there are records, and
    exactly as many when the paths of the records are pairwise distinct. *)
Theorem X3_table_size (pUrls : list pathURL) :
  size (pathSliceToMapConversion pUrls) <= length pUrls
  /\ (NoDup (Path <$> pUrls) ->
      size (pathSliceToMapConversion pUrls) = length pUrls).
Proof.
  induction pUrls as [|pU pUrls [IHle IHeq]] using rev_ind.
  - split; [|intros _]; unfold pathSliceToMapConversion; cbn [fold_left length];
      rewrite map_size_empty; reflexivity.
  - rewrite pathSliceToMapConversion_snoc, length_app, map_size_insert.
    cbn [length]. split.
    + destruct (pathSliceToMapConversion pUrls !! Path pU); cbn; lia.
    + rewrite fmap_app. intros (Hnodup & Hfresh & _)%NoDup_app.
      assert (Hnone : pathSliceToMapConversion pUrls !! Path pU = None).
      { apply pathSliceToMapConversion_fresh. intros Hin.
        apply (Hfresh _ Hin). left. }
      rewrite Hnone. cbn. rewrite IHeq by exact Hnodup. lia.
Qed.

(** X4: every table is rebuilt from its own entries: the records of a
    table, given to the builder, give the table back. *)
Theorem X4_table_rebuilt_from_entries (table : gmap string string) :
  pathSliceToMapConversion (tableRecords table) = table.
Proof.
  induction table as [|p u table Hfresh IH] using map_ind.
  - unfold tableRecords. rewrite map_to_list_empty. reflexivity.
  - assert (Hnodup : NoDup (Path <$> tableRecords (<[p := u]> table))).
    { unfold tableRecords. rewrite <- list_fmap_compose.
      apply (NoDup_fst_map_to_list (<[p := u]> table)). }
    assert (Hperm : tableRecords (<[p := u]> table)
                    ≡ₚ mkPathURL p u :: tableRecords table).
    { unfold tableRecords. rewrite map_to_list_insert by exact Hfresh.
      reflexivity. }
    unfold pathSliceToMapConversion.
    rewrite (fold_insert_Permutation _ _ Hperm Hnodup). cbn [fold_left Path URL].
    rewrite fold_insert_fresh.
    + fold (pathSliceToMapConversion (tableRecords table)). rewrite IH. reflexivity.
    + unfold tableRecords. rewrite <- list_fmap_compose.
      intros ([k v] & Hk & Hin)%list_elem_of_fmap_1.
      apply elem_of_map_to_list in Hin. cbn in Hk. congruence.
Qed.

(** ** Handlers *)

Lemma MapHandler_union {L : NetURL} (outer inner : gmap string string)
    (fallbackHandler : Handler) (rw : ResponseWriter) (r : Request) :
  MapHandler outer (MapHandler inner fallbackHandler) rw r
  = MapHandler (outer ∪ inner) fallbackHandler rw r.
Proof.
  unfold MapHandler. cbv zeta. rewrite lookup_union.
  destruct (outer !! url.Path (ReqURL r)) as [destination|];
    destruct (inner !! url.Path (ReqURL r)); reflexivity.
Qed.

(** X5: a chain of map handlers answers every request as the single map
    handler over the union of its tables, in which an outer table decides
    before an inner one; with no table at all this is the fallback
    itself. *)
Theorem X5_chain_is_one_handler {L : NetURL} (tables : list (gmap string string))
    (fallbackHandler : Handler) (rw : ResponseWriter) (r : Request) :
  chain tables fallbackHandler rw r = MapHandler (⋃ tables) fallbackHandler rw r.
Proof.
  revert rw r. induction tables as [|t tables IH]; intros rw r.
  - unfold MapHandler. cbn. rewrite lookup_empty. reflexivity.
  - rewrite union_list_cons, <- MapHandler_union. cbn [chain foldr].
    unfold MapHandler at 1 3. cbv zeta.
    destruct (t !! url.Path (ReqURL r)); [reflexivity | apply IH].
Qed.

(** X6: a document that decodes without error to no record gives a handler
    that answers every request as the fallback does; so does a file that
    holds such a document. *)
Theorem X6_no_record_is_fallback {L : NetURL} {W : World} (yml jsonFileName : string)
    (fallbackHandler : Handler) (calls : list Call) :
  (yaml_Unmarshal yml = ([], None) ->
   exists h : Handler,
     fst (YAMLHandler yml fallbackHandler calls) = (Some h, None)
     /\ forall rw r, h rw r = fallbackHandler rw r)
  /\ (snd (ioutil_ReadFile jsonFileName) = None ->
      json_Unmarshal (fst (ioutil_ReadFile jsonFileName)) = ([], None) ->
      exists h : Handler,
        fst (JSONFileHandler jsonFileName fallbackHandler calls) = (Some h, None)
        /\ forall rw r, h rw r = fallbackHandler rw r).
Proof.
  split.
  - intros Hyaml. rewrite YAMLHandler_run, Hyaml. cbn [fst snd].
    eexists. split; [reflexivity|]. intros rw r.
    apply MapHandler_miss. apply lookup_empty.
  - intros Hread Hjson. rewrite JSONFileHandler_run, Hread. cbv zeta.
    rewrite Hjson. cbn [fst snd].
    eexists. split; [reflexivity|]. intros rw r.
    apply MapHandler_miss. apply lookup_empty.
Qed.

(** X6 at the empty sequence, as a document and as the file [empty.json]. *)
Lemma X6_no_record_is_fallback_witness :
  (exists h : Handler,
     fst (YAMLHandler (L := sampleURL) (W := emptyDocWorld) "[]" hello [])
     = (Some h, None)
     /\ forall rw r, h rw r = hello rw r)
  /\ (exists h : Handler,
        fst (JSONFileHandler (L := sampleURL) (W := emptyDocWorld) "empty.json" hello [])
        = (Some h, None)
        /\ forall rw r, h rw r = hello rw r).
Proof.
  destruct (X6_no_record_is_fallback (L := sampleURL) (W := emptyDocWorld)
              "[]" "empty.json" hello []) as [Hyaml Hjson].
  split; [apply Hyaml | apply Hjson]; reflexivity.
Defined.

(** X7: the handler that [YAMLHandler] returns for a document that decodes
    without error redirects a request to the URL of the last decoded
    record that has the request path, and passes the request to the
    fallback when no record has it. *)
Theorem X7_last_record_is_served {L : NetURL} {W : World} (yml : string)
    (fallbackHandler : Handler) (calls : list Call) :
  snd (yaml_Unmarshal yml) = None ->
  exists h : Handler,
    fst (YAMLHandler yml fallbackHandler calls) = (Some h, None)
    /\ forall rw r,
         h rw r =
           match last (filter (fun pU => Path pU = url.Path (ReqURL r))
                         (fst (yaml_Unmarshal yml))) with
           | Some pU => http_Redirect rw r (URL pU) http_StatusFound
           | None => fallbackHandler rw r
           end.
Proof.
  intros Hyaml. rewrite YAMLHandler_run, Hyaml. cbn [fst].
  eexists. split; [reflexivity|]. intros rw r.
  unfold MapHandler. cbv zeta. rewrite pathSliceToMapConversion_lookup.
  destruct (last _); reflexivity.
Qed.

(** X7 at the document embedded in [main] and a request for [/urlshort]. *)
Lemma X7_last_record_is_served_witness :
  snd (yaml_Unmarshal (World := sampleWorld) yaml) = None
  /\ exists h : Handler,
       fst (YAMLHandler (L := sampleURL) (W := sampleWorld) yaml hello [])
       = (Some h, None)
       /\ Header (h newResponseWriter (request "GET" "/urlshort")) !! "Location"
          = Some ["https://github.com/gophercises/urlshort"].
Proof.
  split; [reflexivity|].
  destruct (X7_last_record_is_served (L := sampleURL) (W := sampleWorld)
              yaml hello [] eq_refl) as (h & Hh & Hserve).
  exists h. split; [exact Hh|]. rewrite Hserve. reflexivity.
Defined.

(** ** Constructors that read a file *)

(** X8: when the file is read without error and [json.Unmarshal] reports
    an error on its bytes, [JSONFileHandler] returns the [nil] handler with
    that error, having called the reader and then the decoder, whatever
    the decoder had stored before it failed.  For every file name each of
    the two file constructors returns either a handler or an error, never
    both and never neither. *)
Theorem X8_file_constructors_error_or_handler {L : NetURL} {W : World}
    (fileName : string) (fallbackHandler : Handler) (calls : list Call) :
  (forall e,
      snd (ioutil_ReadFile fileName) = None ->
      snd (json_Unmarshal (fst (ioutil_ReadFile fileName))) = Some e ->
      JSONFileHandler fileName fallbackHandler calls
      = ((None, Some e),
         calls ++ [CallReadFile fileName;
                   CallJSONUnmarshal (fst (ioutil_ReadFile fileName))]))
  /\ (let result := fst (JSONFileHandler fileName fallbackHandler calls) in
      fst result = None <-> snd result <> None)
  /\ (let result := fst (YAMLFileHandler fileName fallbackHandler calls) in
      fst result = None <-> snd result <> None).
Proof.
  rewrite JSONFileHandler_run, YAMLFileHandler_run. cbv zeta.
  destruct (snd (ioutil_ReadFile fileName)) as [e|].
  - split; [discriminate|]. cbn [fst snd].
    split; (split; [discriminate | reflexivity]).
  - destruct (snd (json_Unmarshal (fst (ioutil_ReadFile fileName)))) as [eJ|],
      (snd (yaml_Unmarshal (fst (ioutil_ReadFile fileName)))) as [eY|];
      cbn [fst snd];
      (split; [first [intros e _ [= <-]; reflexivity | discriminate]|]);
      split;
      (split; [first [discriminate | reflexivity]
              | first [reflexivity | intros H; exfalso; apply H; reflexivity]]).
Qed.

(** X8 at the YAML file of the excerpt given to the JSON constructor. *)
Lemma X8_file_constructors_error_or_handler_witness :
  snd (ioutil_ReadFile (World := sampleWorld) "paths.yaml") = None
  /\ JSONFileHandler (L := sampleURL) (W := sampleWorld) "paths.yaml" hello []
     = ((None, Some "json: cannot unmarshal"),
        [CallReadFile "paths.yaml"; CallJSONUnmarshal sampleYAML]).
Proof.
  split; [reflexivity|].
  apply (X8_file_constructors_error_or_handler (L := sampleURL) (W := sampleWorld)
           "paths.yaml" hello []); reflexivity.
Defined.

(** X9: on a file that is read without error, [YAMLFileHandler] is
    [YAMLHandler] on the bytes of the file, after the call of the reader:
    same handler, same error, same calls. *)
Theorem X9_YAMLFileHandler_is_YAMLHandler_on_bytes {L : NetURL} {W : World}
    (yamlFileName : string) (fallbackHandler : Handler) (calls : list Call) :
  snd (ioutil_ReadFile yamlFileName) = None ->
  YAMLFileHandler yamlFileName fallbackHandler calls
  = YAMLHandler (fst (ioutil_ReadFile yamlFileName)) fallbackHandler
      (calls ++ [CallReadFile yamlFileName]).
Proof.
  intros Hread. rewrite YAMLFileHandler_run, YAMLHandler_run, Hread. cbv zeta.
  rewrite <- app_assoc. reflexivity.
Qed.

(** X9 at the YAML file of the excerpt. *)
Lemma X9_YAMLFileHandler_is_YAMLHandler_on_bytes_witness :
  snd (ioutil_ReadFile (World := sampleWorld) "paths.yaml") = None
  /\ YAMLFileHandler (L := sampleURL) (W := sampleWorld) "paths.yaml" hello []
     = YAMLHandler (L := sampleURL) (W := sampleWorld) sampleYAML hello
         [CallReadFile "paths.yaml"].
Proof.
  split; [reflexivity|].
  apply (X9_YAMLFileHandler_is_YAMLHandler_on_bytes (L := sampleURL)
           (W := sampleWorld) "paths.yaml" hello []).
  reflexivity.
Defined.

(** ** Startup, when a library call fails *)

(** All the ways [main] can go. *)
Lemma main_run {L : NetURL} {W : World} (jsonFileName yamlFileName : string)
    (calls : list Call) :
  main jsonFileName yamlFileName calls =
    let jsonData := fst (ioutil_ReadFile jsonFileName) in
    let yamlData := fst (ioutil_ReadFile yamlFileName) in
    match snd (yaml_Unmarshal yaml) with
    | Some e => (Panic e, calls ++ [CallYAMLUnmarshal yaml])
    | None =>
    match snd (ioutil_ReadFile jsonFileName) with
    | Some e => (Panic e, calls ++ [CallYAMLUnmarshal yaml; CallReadFile jsonFileName])
    | None =>
    match snd (json_Unmarshal jsonData) with
    | Some e => (Panic e, calls ++ [CallYAMLUnmarshal yaml; CallReadFile jsonFileName;
                                    CallJSONUnmarshal jsonData])
    | None =>
    match snd (ioutil_ReadFile yamlFileName) with
    | Some e => (Panic e, calls ++ [CallYAMLUnmarshal yaml; CallReadFile jsonFileName;
                                    CallJSONUnmarshal jsonData;
                                    CallReadFile yamlFileName])
    | None =>
    match snd (yaml_Unmarshal yamlData) with
    | Some e => (Panic e, calls ++ [CallYAMLUnmarshal yaml; CallReadFile jsonFileName;
                                    CallJSONUnmarshal jsonData;
                                    CallReadFile yamlFileName;
                                    CallYAMLUnmarshal yamlData])
    | None =>
        (ListenAndServe ":8080"
           (MapHandler (pathSliceToMapConversion (fst (yaml_Unmarshal yamlData)))
              (MapHandler (pathSliceToMapConversion (fst (json_Unmarshal jsonData)))
                 (MapHandler (pathSliceToMapConversion (fst (yaml_Unmarshal yaml)))
                    (MapHandler pathsToUrls (ServeMux_ServeHTTP defaultMux))))),
         calls ++ [CallYAMLUnmarshal yaml; CallReadFile jsonFileName;
                   CallJSONUnmarshal jsonData; CallReadFile yamlFileName;
                   CallYAMLUnmarshal yamlData;
                   CallPrintln "Starting the server on :8080"])
    end end end end end.
Proof.
  cbv zeta. unfold main, mbind, IO_MBind, IO_bind.
  rewrite YAMLHandler_run.
  destruct (snd (yaml_Unmarshal yaml)) as [e|]; [reflexivity|].
  rewrite JSONFileHandler_run.
  destruct (snd (ioutil_ReadFile jsonFileName)) as [e|];
    [rewrite <- app_assoc; reflexivity|].
  cbv zeta.
  destruct (snd (json_Unmarshal (fst (ioutil_ReadFile jsonFileName)))) as [e|];
    [rewrite <- app_assoc; reflexivity|].
  rewrite YAMLFileHandler_run.
  destruct (snd (ioutil_ReadFile yamlFileName)) as [e|];
    [rewrite <- !app_assoc; reflexivity|].
  cbv zeta.
  destruct (snd (yaml_Unmarshal (fst (ioutil_ReadFile yamlFileName)))) as [e|];
    [rewrite <- !app_assoc; reflexivity|].
  unfold IO_call, IO_ret, HandlerFunc. rewrite <- !app_assoc. reflexivity.
Qed.

(** X10: [main] panics with the error of the first library call that
    fails, in the order embedded YAML, JSON file read, JSON decode, YAML
    file read, YAML decode, and makes no call after the one that failed:
    a broken embedded document is reported before any file is opened, and
    a missing JSON file before the YAML file is opened. *)
Theorem X10_main_panics_at_first_error {L : NetURL} {W : World}
    (jsonFileName yamlFileName : string) (calls : list Call) :
  let jsonData := fst (ioutil_ReadFile jsonFileName) in
  let yamlData := fst (ioutil_ReadFile yamlFileName) in
  (forall e, snd (yaml_Unmarshal yaml) = Some e ->
     main jsonFileName yamlFileName calls
     = (Panic e, calls ++ [CallYAMLUnmarshal yaml]))
  /\ (forall e, snd (yaml_Unmarshal yaml) = None ->
        snd (ioutil_ReadFile jsonFileName) = Some e ->
        main jsonFileName yamlFileName calls
        = (Panic e, calls ++ [CallYAMLUnmarshal yaml; CallReadFile jsonFileName]))
  /\ (forall e, snd (yaml_Unmarshal yaml) = None ->
        snd (ioutil_ReadFile jsonFileName) = None ->
        snd (json_Unmarshal jsonData) = Some e ->
        main jsonFileName yamlFileName calls
        = (Panic e, calls ++ [CallYAMLUnmarshal yaml; CallReadFile jsonFileName;
                              CallJSONUnmarshal jsonData]))
  /\ (forall e, snd (yaml_Unmarshal yaml) = None ->
        snd (ioutil_ReadFile jsonFileName) = None ->
        snd (json_Unmarshal jsonData) = None ->
        snd (ioutil_ReadFile yamlFileName) = Some e ->
        main jsonFileName yamlFileName calls
        = (Panic e, calls ++ [CallYAMLUnmarshal yaml; CallReadFile jsonFileName;
                              CallJSONUnmarshal jsonData; CallReadFile yamlFileName]))
  /\ (forall e, snd (yaml_Unmarshal yaml) = None ->
        snd (ioutil_ReadFile jsonFileName) = None ->
        snd (json_Unmarshal jsonData) = None ->
        snd (ioutil_ReadFile yamlFileName) = None ->
        snd (yaml_Unmarshal yamlData) = Some e ->
        main jsonFileName yamlFileName calls
        = (Panic e, calls ++ [CallYAMLUnmarshal yaml; CallReadFile jsonFileName;
                              CallJSONUnmarshal jsonData; CallReadFile yamlFileName;
                              CallYAMLUnmarshal yamlData])).
Proof.
  cbv zeta. rewrite main_run. cbv zeta.
  repeat split; intros e; intros;
    repeat match goal with H : snd _ = _ |- _ => rewrite H; clear H end;
    reflexivity.
Qed.

(** X10 with a JSON file that does not exist: the YAML file is not opened. *)
Lemma X10_main_panics_at_first_error_witness :
  snd (yaml_Unmarshal (World := sampleWorld) yaml) = None
  /\ snd (ioutil_ReadFile (World := sampleWorld) "missing.json")
     = Some "open missing.json: no such file or directory"
  /\ main (L := sampleURL) (W := sampleWorld) "missing.json" "paths.yaml" []
     = (Panic "open missing.json: no such file or directory",
        [CallYAMLUnmarshal yaml; CallReadFile "missing.json"]).
Proof.
  split; [reflexivity|]. split; [reflexivity|].
  apply (X10_main_panics_at_first_error (L := sampleURL) (W := sampleWorld)
           "missing.json" "paths.yaml" []); reflexivity.
Defined.

(** X11: [main] prints its startup line exactly when it goes on to
    [http.ListenAndServe]: the line is never printed before a panic, and
    the server is never started without it. *)
Theorem X11_startup_line_iff_serving {L : NetURL} {W : World}
    (jsonFileName yamlFileName : string) :
  (exists line, CallPrintln line ∈ snd (main jsonFileName yamlFileName []))
  <-> (exists addr root,
          fst (main jsonFileName yamlFileName []) = ListenAndServe addr root).
Proof.
  rewrite main_run. cbv zeta.
  repeat match goal with
         | |- context [match ?o with Some _ => _ | None => _ end] => destruct o
         end;
    cbn [fst snd app];
    (split;
     [ intros [line Hin];
       repeat (apply elem_of_cons in Hin as [Hin|Hin]; [try discriminate Hin|]);
       [eexists _, _; reflexivity .. | apply elem_of_nil in Hin; contradiction]
     | intros (addr & root & Hexit);
       first [discriminate Hexit
             | exists "Starting the server on :8080";
               repeat (apply elem_of_cons; first [left; reflexivity | right]) ] ]).
Qed.

(** ** The default mux, on every request *)

Lemma http_Error_status w err code :
  status w = None -> status (http_Error w err code) = Some code.
Proof.
  intros Hw. unfold http_Error. cbv zeta.
  rewrite fmt_Fprintln_status, WriteHeader_fresh by exact Hw. reflexivity.
Qed.

(** X12: what the mux of [defaultMux] answers on a writer whose header is
    not yet written.  The target [*] gets 400.  A [CONNECT] request gets
    the greeting with 200 when its path starts with a slash and 404
    otherwise.  Any other request gets the greeting with 200 when its path
    is in canonical form, and otherwise 301 with a [Location] header made
    from the canonical path and the query; so only a [CONNECT] request can
    get 404. *)
Theorem X12_defaultMux_on_every_request {L : NetURL} (rw : ResponseWriter)
    (r : Request) :
  status rw = None ->
  let p := url.Path (ReqURL r) in
  let rw' := ServeMux_ServeHTTP defaultMux rw r in
  status rw' =
    Some (if String.eqb (RequestURI r) "*" then http_StatusBadRequest
          else if String.eqb (Method r) "CONNECT" then
            if firstByteIs "/" p then http_StatusOK else http_StatusNotFound
          else if String.eqb (cleanPath p) p then http_StatusOK
          else http_StatusMovedPermanently)
  /\ (status rw' = Some http_StatusOK ->
      body rw' = body rw +:+ "Hello, world!" +:+ newline)
  /\ (status rw' = Some http_StatusMovedPermanently ->
      Header rw' !! "Location"
      = Some [hexEscapeNonASCII
                (redirectURL r
                   (url_String (url.mkURL "" "" (cleanPath p)
                                  (url.RawQuery (ReqURL r)))))]).
Proof.
  intros Hfresh p rw'. subst p rw'. rewrite defaultMux_ServeHTTP. cbv zeta.
  destruct (String.eqb (RequestURI r) "*").
  - rewrite WriteHeader_fresh by (destruct (ProtoAtLeast r 1 1); exact Hfresh).
    split; [reflexivity|]. split; discriminate.
  - destruct (String.eqb (Method r) "CONNECT").
    + destruct (firstByteIs "/" (url.Path (ReqURL r))).
      * unfold hello. rewrite fmt_Fprintln_status, fmt_Fprintln_body, Hfresh.
        split; [reflexivity|]. split; [reflexivity | discriminate].
      * unfold http_NotFound. rewrite http_Error_status by exact Hfresh.
        split; [reflexivity|]. split; discriminate.
    + destruct (String.eqb (cleanPath (url.Path (ReqURL r))) (url.Path (ReqURL r))).
      * unfold hello. rewrite fmt_Fprintln_status, fmt_Fprintln_body, Hfresh.
        split; [reflexivity|]. split; [reflexivity | discriminate].
      * rewrite http_Redirect_status by exact Hfresh.
        split; [reflexivity|]. split; [discriminate|].
        intros _. apply http_Redirect_Location.
Qed.

(** X12 at [GET /a/../nowhere], which is redirected to [/nowhere]. *)
Lemma X12_defaultMux_on_every_request_witness :
  let rw' := ServeMux_ServeHTTP (L := sampleURL) defaultMux newResponseWriter
               (request "GET" "/a/../nowhere") in
  status newResponseWriter = None
  /\ status rw' = Some 301
  /\ cleanPath "/a/../nowhere" = "/nowhere".
Proof.
  split; [reflexivity|].
  split; [|reflexivity].
  apply (X12_defaultMux_on_every_request (L := sampleURL) newResponseWriter
           (request "GET" "/a/../nowhere") eq_refl).
Defined.
